(** * curtin hooks of the RHEL/CentOS image: a shallow embedding

    The development follows [contrib/rhel/curtin/curtin-hooks.py] in its
    two revisions, called [R33] (earlier) and [R46] (later).  The hook is
    a straight-line script over the file system and a few external
    commands; it is embedded as a state-and-exception monad over an
    explicit machine state, with the behaviour of the external
    collaborators (curtin's [block] and [util] modules, [mount], the
    directory tree under the mount points) taken as a parameter [Env]. *)

From stdpp Require Import base strings list gmap.
From Stdlib Require Import ZArith Ascii.

Local Open Scope string_scope.
Local Open Scope list_scope.

(** ** Python strings *)

Module PyStr.

Definition nl : string := String (ascii_of_nat 10) "".
Definition dq : string := String (ascii_of_nat 34) "".

(** ['"%s"' % s] *)
Definition quoted (s : string) : string := dq +:+ s +:+ dq.

(** A list of lines, each one terminated by a newline: the value of a
    triple-quoted literal that starts with a backslash. *)
Definition lines (l : list string) : string :=
  fold_right (λ x acc, x +:+ nl +:+ acc) "" l.

Definition startswith (s p : string) : bool := String.prefix p s.

Definition endswith (s p : string) : bool :=
  String.prefix (String.rev p) (String.rev s).

(** Bytes below 128: what Python 2's implicit [ascii] codec accepts. *)
Definition is_ascii_char (a : ascii) : bool := (nat_of_ascii a <? 128)%nat.

Fixpoint is_ascii (s : string) : bool :=
  match s with
  | "" => true
  | String a s' => is_ascii_char a && is_ascii s'
  end.

(** White space of [str.split()] with no argument.  On a Python 2 byte
    string these are the six C-locale characters; on a Python 3 text
    string the separators U+001C..U+001F, U+0085 and U+00A0 count too
    (characters above U+00FF are outside this model). *)
Definition isspace (unicode : bool) (a : ascii) : bool :=
  let n := nat_of_ascii a in
  ((9 <=? n) && (n <=? 13) || (n =? 32) ||
   unicode && ((28 <=? n) && (n <=? 31) || (n =? 133) || (n =? 160)))%nat.

(** [s.split()]: maximal runs of characters that are not white space.
    [cur] holds the characters of the token being read, reversed. *)
Fixpoint split_go (unicode : bool) (cur : option string) (s : string)
  : list string :=
  match s with
  | "" => match cur with Some w => [String.rev w] | None => [] end
  | String a s' =>
      if isspace unicode a
      then match cur with
           | Some w => String.rev w :: split_go unicode None s'
           | None => split_go unicode None s'
           end
      else split_go unicode
             (Some (String a (match cur with Some w => w | None => "" end))) s'
  end.

Definition split_ws (unicode : bool) (s : string) : list string :=
  split_go unicode None s.

(** [s.split(c)] for a separator of one character. *)
Fixpoint split_char (c : ascii) (s : string) : list string :=
  match s with
  | "" => [""]
  | String a s' =>
      if Ascii.eqb a c then "" :: split_char c s'
      else match split_char c s' with
           | h :: t => String a h :: t
           | [] => [String a ""]
           end
  end.

(** [sep.join(l)] *)
Definition join (sep : string) (l : list string) : string :=
  String.concat sep l.

(** [s.replace(old, new)] for a non-empty [old]: occurrences are
    replaced from the left and do not overlap.  [skip] counts the
    characters of a match that are still to be dropped. *)
Fixpoint replace_go (old new : string) (skip : nat) (s : string) : string :=
  match s with
  | "" => ""
  | String a s' =>
      match skip with
      | S k => replace_go old new k s'
      | O =>
          if String.prefix old s
          then new +:+ replace_go old new (String.length old - 1) s'
          else String a (replace_go old new 0 s')
      end
  end.

Definition replace (old new s : string) : string := replace_go old new 0 s.

(** [s.lower()] and [s.upper()] on the letters A-Z and a-z, which is all
    a byte string changes; a MAC address has no other letter. *)
Definition lower_char (a : ascii) : ascii :=
  let n := nat_of_ascii a in
  if ((65 <=? n) && (n <=? 90))%nat then ascii_of_nat (n + 32) else a.

Definition upper_char (a : ascii) : ascii :=
  let n := nat_of_ascii a in
  if ((97 <=? n) && (n <=? 122))%nat then ascii_of_nat (n - 32) else a.

Fixpoint map_chars (f : ascii → ascii) (s : string) : string :=
  match s with
  | "" => ""
  | String a s' => String (f a) (map_chars f s')
  end.

Definition lower : string → string := map_chars lower_char.
Definition upper : string → string := map_chars upper_char.

Fixpoint lstrip (unicode : bool) (s : string) : string :=
  match s with
  | "" => ""
  | String a s' => if isspace unicode a then lstrip unicode s' else s
  end.

Definition strip (unicode : bool) (s : string) : string :=
  String.rev (lstrip unicode (String.rev (lstrip unicode s))).

End PyStr.

(** ** [os.path.join] (posixpath) *)

Definition path_join2 (path b : string) : string :=
  if PyStr.startswith b "/" then b
  else if bool_decide (path = "") || PyStr.endswith path "/" then path +:+ b
  else path +:+ "/" +:+ b.

Definition os_path_join (a : string) (p : list string) : string :=
  fold_left path_join2 p a.
Arguments os_path_join : simpl never.

(** ** Values

    [revision] selects the revision of the hook.  The earlier one is
    Python 2 code ([open] has no [encoding] argument there and
    [read_file] calls [encode] on what it read); the later one opens its
    files with [encoding='utf-8'], which only Python 3 accepts. *)

Inductive revision := R33 | R46.

Definition unicode_text (rev : revision) : bool :=
  match rev with R33 => false | R46 => true end.

Inductive exn :=
| IOError (path : string)
| OSError (op path : string)
| UnicodeDecodeError
| ValueError (msg : string)
| KeyError (key : string)
| AttributeError (msg : string)
| TypeError (msg : string)
| SystemError (msg : string)
| ProcessExecutionError (cmd : list string)
| PyException (msg : string).

(** The values the hook stores in the interface dictionary, and the
    scalar values of the provisioning config: [null], a boolean or a
    string. *)
Inductive pyobj := VNone | VBool (b : bool) | VStr (s : string).

#[global] Instance pyobj_eq_dec : EqDecision pyobj.
Proof. solve_decision. Defined.

(** [str(v)], as ['%s' % v] formats it *)
Definition py_str (v : pyobj) : string :=
  match v with
  | VNone => "None"
  | VBool true => "True"
  | VBool false => "False"
  | VStr s => s
  end.

Definition truthy (v : pyobj) : bool :=
  match v with
  | VNone => false
  | VBool b => b
  | VStr s => negb (bool_decide (s = ""))
  end.

Definition opt_obj (o : option string) : pyobj :=
  match o with Some s => VStr s | None => VNone end.

(** One entry of [block._lsblock()]: the keys the hook reads. *)
Record blockinfo := { LABEL : string; device_path : string }.

(** The provisioning config, as [json.load] returns it; an absent key is
    [None] here, a key whose JSON value is [null] is [Some VNone], and
    the JSON value [null] of ['config'] is [Some None]. *)
Record subnet := { sn_gateway : option pyobj; sn_address : option pyobj }.
Record config_line := {
  cl_name : option pyobj;
  cl_subnets : option (list subnet) }.
Record network_section := {
  ns_config : option (option (list config_line)) }.
Record curtin_config := { cc_network : option network_section }.

(** [util.load_command_environment()] *)
Record command_state := {
  st_target : option string;
  st_fstab : option string;
  st_config : option string }.

(** What [print] was given. *)
Inductive printed :=
| PStr (s : string)
| PNone
| PBool (b : bool)
| PList (l : list string)
| PExn (e : exn)
| PBlock (b : blockinfo)
| PConfig (c : curtin_config)
| PNetwork (n : option (list config_line)).

(** Calls whose success the environment decides. *)
Inductive syscall :=
| SysOpen (path : string) (mode : string)
| SysMkdir (path : string)
| SysRmdir (path : string)
| SysRmtree (path : string)
| SysCopytree (src dst : string)
| SysSubp (args : list string)
| SysChroot (target : string) (args : list string).

#[global] Instance syscall_eq_dec : EqDecision syscall.
Proof. solve_decision. Defined.

(** ** Machine state

    [files] gives, for every regular file that can be read, the
    characters that reading it yields: bytes for the earlier revision,
    which opens its files in binary mode, text for the later one, where
    the decoding is done by [open].  [dirs] holds the directories that
    exist among those the hook makes and removes itself; the directory
    trees under the mount points change with every mount and are left to
    the environment. *)

Record State := {
  files : gmap string string;       (* regular files: path to content *)
  dirs : gset string;               (* directories of [os.mkdir] and [os.rmdir] *)
  mounts : list (string * string);  (* (device, mount point), newest first *)
  heap : list (list string);        (* Python list objects, by address *)
  stdout : list printed;
  trace : list (syscall * bool) }.  (* the [syscall]s made, oldest first, with success *)

Definition set_files (f : gmap string string) (st : State) : State :=
  {| files := f; dirs := dirs st; mounts := mounts st; heap := heap st;
     stdout := stdout st; trace := trace st |}.
Definition set_dirs (d : gset string) (st : State) : State :=
  {| files := files st; dirs := d; mounts := mounts st; heap := heap st;
     stdout := stdout st; trace := trace st |}.
Definition set_mounts (m : list (string * string)) (st : State) : State :=
  {| files := files st; dirs := dirs st; mounts := m; heap := heap st;
     stdout := stdout st; trace := trace st |}.
Definition set_heap (h : list (list string)) (st : State) : State :=
  {| files := files st; dirs := dirs st; mounts := mounts st; heap := h;
     stdout := stdout st; trace := trace st |}.
Definition set_stdout (o : list printed) (st : State) : State :=
  {| files := files st; dirs := dirs st; mounts := mounts st; heap := heap st;
     stdout := o; trace := trace st |}.
Definition log (c : syscall) (ok : bool) (st : State) : State :=
  {| files := files st; dirs := dirs st; mounts := mounts st; heap := heap st;
     stdout := stdout st; trace := trace st ++ [(c, ok)] |}.

Definition is_mounted (mp : string) (st : State) : bool :=
  bool_decide (mp ∈ (snd <$> mounts st)).

(** [umount mp] releases the newest mount on [mp]. *)
Fixpoint remove_mount (mp : string) (l : list (string * string))
  : list (string * string) :=
  match l with
  | [] => []
  | dm :: t => if bool_decide (dm.2 = mp) then t else dm :: remove_mount mp t
  end.

(** ** The monad: state, [sys.exit] and exceptions *)

Inductive outcome (A : Type) :=
| Ok (a : A)
| Exit (code : Z)
| Raise (e : exn).
Arguments Ok {A} a.
Arguments Exit {A} code.
Arguments Raise {A} e.

Definition M (A : Type) : Type := State → outcome A * State.

Definition ret {A} (a : A) : M A := λ st, (Ok a, st).

Definition bind {A B} (m : M A) (f : A → M B) : M B := λ st,
  match m st with
  | (Ok a, st') => f a st'
  | (Exit c, st') => (Exit c, st')
  | (Raise e, st') => (Raise e, st')
  end.

Declare Scope hook_scope.
Delimit Scope hook_scope with hook.
Bind Scope hook_scope with M.
Notation "x ← y ; z" := (bind y (λ x, z))
  (at level 20, y at level 100, z at level 200, only parsing) : hook_scope.
Notation "x ;; z" := (bind x (λ _, z))
  (at level 100, z at level 200, only parsing, right associativity) : hook_scope.
Local Open Scope hook_scope.

Definition raise {A} (e : exn) : M A := λ st, (Raise e, st).
Definition sys_exit {A} (code : Z) : M A := λ st, (Exit code, st).
Definition print (v : printed) : M unit :=
  λ st, (Ok tt, set_stdout (stdout st ++ [v]) st).
Definition pass : M unit := ret tt.
Definition lift {A} (r : exn + A) : M A :=
  match r with inl e => raise e | inr a => ret a end.

(** [try: body finally: cleanup].  The cleanup runs however the body
    ended; when the cleanup itself ends abnormally, that replaces the
    body's outcome. *)
Definition try_finally {A} (body : M A) (cleanup : M unit) : M A := λ st,
  let '(r, st1) := body st in
  match cleanup st1 with
  | (Ok _, st2) => (r, st2)
  | (Exit c, st2) => (Exit c, st2)
  | (Raise e, st2) => (Raise e, st2)
  end.

(** [try: body except Exception as e: handler]; [sys.exit] is not an
    [Exception] and passes through. *)
Definition try_except {A} (body : M A) (handler : exn → M A) : M A := λ st,
  match body st with
  | (Raise e, st1) => handler e st1
  | r => r
  end.

Fixpoint for_each {A S} (l : list A) (body : S → A → M S) (acc : S) : M S :=
  match l with
  | [] => ret acc
  | x :: t => acc' ← body acc x; for_each t body acc'
  end.

(** The exit status of the process: 0 when [main] returns, the argument
    of [sys.exit], and 1 when an exception reaches the top level. *)
Definition exit_status {A} (r : outcome A) : Z :=
  match r with
  | Ok _ => 0
  | Exit c => c
  | Raise _ => 1
  end.

(** ** List objects *)

Definition list_new (l : list string) : M nat :=
  λ st, (Ok (length (heap st)), set_heap (heap st ++ [l]) st).

Definition list_read (r : nat) : M (list string) := λ st,
  match heap st !! r with
  | Some l => (Ok l, st)
  | None => (Raise (SystemError "dangling reference"), st)
  end.

Definition list_append (r : nat) (x : string) : M unit := λ st,
  match heap st !! r with
  | Some l => (Ok tt, set_heap (<[r := l ++ [x]]> (heap st)) st)
  | None => (Raise (SystemError "dangling reference"), st)
  end.

(** ** The environment *)

(** What the hook takes from outside: the functions of curtin that it
    calls, the parse of the provisioning config, and the answers of the
    operating system, which may depend on everything done so far. *)
Record Env := {
  (* util.load_command_environment() *)
  command_environment : command_state;
  (* util.is_uefi_bootable() *)
  is_uefi_bootable : bool;
  (* block.get_devices_for_mp(target) *)
  get_devices_for_mp : string → exn + list string;
  (* block.get_blockdev_for_partition(devpath) *)
  get_blockdev_for_partition : string → exn + (string * string);
  (* block._lsblock().items() *)
  lsblock : exn + list (string * blockinfo);
  (* json.load, from the text of the file *)
  json_load : string → exn + curtin_config;
  (* does this call fail now? *)
  sys_fails : State → syscall → bool;
  (* stream.write(data) on the file at this path: the exception it raises,
     if any (an I/O error, or text that the encoding of the file cannot take) *)
  write_error : State → string → string → option exn;
  (* os.path.exists(path) *)
  path_exists : State → string → bool;
  (* os.listdir(path) *)
  dir_listing : State → string → exn + list string }.

(** ** Module-level constants *)

Definition FSTAB_PREPEND : string :=
  PyStr.lines
    [ "#";
      "# /etc/fstab";
      "# Created by MAAS fast-path installer.";
      "#";
      "# Accessible filesystems, by reference, are maintained under '/dev/disk'";
      "# See man pages fstab(5), findfs(8), mount(8) and/or blkid(8) for more info";
      "#" ].

Definition FSTAB_UEFI : string :=
  PyStr.lines [ "LABEL=uefi-boot /boot/efi vfat defaults 0 0" ].

Definition GRUB_PREPEND : string :=
  PyStr.lines
    [ "# Set by MAAS fast-path installer.";
      "GRUB_TIMEOUT=0";
      "GRUB_TERMINAL_OUTPUT=console";
      "GRUB_DISABLE_OS_PROBER=true" ].

(** The list object that the default value [extra=[]] of
    [update_grub_default] denotes.  It is made once, when the [def]
    statement runs, and every call without [extra] receives this same
    object; [module_heap] is the heap right after the module is loaded. *)
Definition extra_default : nat := 0.
Definition module_heap : list (list string) := [ [] ].

Definition proc_cmdline : string := "/proc/cmdline".

Section Hook.

Variable env : Env.

(** *** Primitive operations *)

(** A call that the environment may refuse.  [forced st] holds when the
    state alone makes the call fail. *)
Definition sys (c : syscall) (forced : State → bool) (e : exn)
    (effect : State → State) : M unit := λ st,
  if forced st || sys_fails env st c
  then (Raise e, log c false st)
  else (Ok tt, effect (log c true st)).

Definition os_mkdir (path : string) : M unit :=
  sys (SysMkdir path)
      (λ st, bool_decide (path ∈ dirs st))
      (OSError "mkdir" path)
      (λ st, set_dirs ({[ path ]} ∪ dirs st) st).

Definition os_rmdir (path : string) : M unit :=
  sys (SysRmdir path)
      (λ st, negb (bool_decide (path ∈ dirs st)) || is_mounted path st)
      (OSError "rmdir" path)
      (λ st, set_dirs (dirs st ∖ {[ path ]}) st).

Definition shutil_rmtree (path : string) : M unit :=
  sys (SysRmtree path) (λ _, false) (OSError "rmtree" path) id.

Definition shutil_copytree (src dst : string) : M unit :=
  sys (SysCopytree src dst) (λ _, false) (OSError "copytree" src) id.

Definition os_path_exists (path : string) : M bool :=
  λ st, (Ok (path_exists env st path), st).

Definition os_listdir (path : string) : M (list string) :=
  λ st, lift (dir_listing env st path) st.

Definition subp_forced (args : list string) (st : State) : bool :=
  match args with
  | [ "umount"; mp ] => negb (is_mounted mp st)
  | _ => false
  end.

Definition subp_effect (args : list string) (st : State) : State :=
  match args with
  | [ "mount"; dev; mp ] => set_mounts ((dev, mp) :: mounts st) st
  | [ "umount"; mp ] => set_mounts (remove_mount mp (mounts st)) st
  | _ => st
  end.

(** [util.subp(args)]: runs the command, raises when it fails. *)
Definition util_subp (args : list string) : M unit :=
  sys (SysSubp args) (subp_forced args) (ProcessExecutionError args)
      (subp_effect args).

(** [with util.RunInChroot(target) as in_chroot: in_chroot(args)] *)
Definition run_in_chroot (target : string) (args : list string) : M unit :=
  sys (SysChroot target args) (λ _, false) (ProcessExecutionError args) id.

Definition open_read (path : string) : M string := λ st,
  match files st !! path with
  | Some data => (Ok data, st)
  | None => (Raise (IOError path), st)
  end.

Definition content (path : string) (st : State) : string :=
  default "" (files st !! path).

(** [open(path, 'w')] truncates or creates the file. *)
Definition open_write (path : string) : M unit :=
  sys (SysOpen path "w") (λ _, false) (IOError path)
      (λ st, set_files (<[ path := "" ]> (files st)) st).

(** [open(path, 'a')] creates the file when it is missing. *)
Definition open_append (path : string) : M unit :=
  sys (SysOpen path "a") (λ _, false) (IOError path)
      (λ st, set_files (<[ path := content path st ]> (files st)) st).

(** [stream.write(data)] on the file opened at [path]; nothing is added
    to the file when the write fails. *)
Definition stream_write (path data : string) : M unit := λ st,
  match write_error env st path data with
  | Some e => (Raise e, st)
  | None =>
      (Ok tt, set_files (<[ path := content path st +:+ data ]> (files st)) st)
  end.

Definition dict_get {V} (d : gmap string V) (k : string) : M V :=
  match d !! k with
  | Some v => ret v
  | None => raise (KeyError k)
  end.

(** *** The hook *)

Definition get_block_devices (target : string) : M (list string) :=
  devs ← lift (get_devices_for_mp env target);
  blockdevs ← for_each devs
    (λ (blockdevs : gset string) maybepart,
       bp ← lift (get_blockdev_for_partition env maybepart);
       ret ({[ bp.1 ]} ∪ blockdevs)) ∅;
  ret (elements blockdevs).

Fixpoint find_uefi (items : list (string * blockinfo)) : option blockinfo :=
  match items with
  | [] => None
  | (_, value) :: rest =>
      if bool_decide (LABEL value = "uefi-boot") then Some value
      else find_uefi rest
  end.

Definition get_uefi_partition : M (option blockinfo) :=
  items ← lift (lsblock env);
  ret (find_uefi items).

(** Python 2's [str.encode('utf-8')] on a byte string: the bytes are
    first decoded with the [ascii] codec, which raises on a byte above
    127, and then encoded again, which gives them back. *)
Definition py2_str_encode (data : string) : M string :=
  if PyStr.is_ascii data then ret data else raise UnicodeDecodeError.

Definition read_file (rev : revision) (path : string) : M string :=
  match rev with
  | R33 => data ← open_read path; py2_str_encode data
  | R46 => open_read path
  end.

Definition load_config (path : option string) : M curtin_config :=
  match path with
  | None => raise (TypeError "expected str, bytes or os.PathLike object, not NoneType")
  | Some path => data ← open_read path; lift (json_load env data)
  end.

Definition write_fstab (rev : revision) (target curtin_fstab : string) : M unit :=
  let fstab_path := os_path_join target [ "etc"; "fstab" ] in
  fstab_data ← read_file rev curtin_fstab;
  open_write fstab_path;;
  stream_write fstab_path FSTAB_PREPEND;;
  stream_write fstab_path fstab_data;;
  if is_uefi_bootable env then stream_write fstab_path FSTAB_UEFI
  else pass.

Definition strip_kernel_params (params strip_params : list string)
  : list string :=
  fold_left
    (λ new_params param,
       let remove := existsb (λ strip, PyStr.startswith param strip) strip_params in
       if remove then new_params else new_params ++ [ param ])
    params [].

(** [l.index(x)] *)
Fixpoint list_index (x : string) (l : list string) : option nat :=
  match l with
  | [] => None
  | y :: t => if bool_decide (y = x) then Some 0 else S <$> list_index x t
  end.

Definition get_extra_kernel_parameters (rev : revision) : M (list string) :=
  cmdline ← read_file rev proc_cmdline;
  let cmdline := PyStr.split_ws (unicode_text rev) cmdline in
  if negb (bool_decide ("--" ∈ cmdline)) then ret []
  else
    i ← from_option ret (raise (ValueError "'--' is not in list"))
           (list_index "--" cmdline);
    let idx := i + 1 in
    if (length cmdline + 1 <=? idx)%nat then ret []
    else ret (strip_kernel_params (drop idx cmdline)
                 [ "initrd="; "BOOT_IMAGE="; "BOOTIF=" ]).

Definition grub_cmdline_line (kernel_cmdline : string) : string :=
  "GRUB_CMDLINE_LINUX=" +:+ PyStr.quoted kernel_cmdline +:+ PyStr.nl.

Definition update_grub_default (rev : revision) (target : string) (extra : nat)
  : M unit :=
  let grub_default_path := os_path_join target [ "etc"; "default"; "grub" ] in
  match rev with
  | R33 => pass
  | R46 => list_append extra "fsck.mode=skip";;
           list_append extra "rootfstype=ext4"
  end;;
  params ← list_read extra;
  let kernel_cmdline := PyStr.join " " params in
  open_append grub_default_path;;
  stream_write grub_default_path GRUB_PREPEND;;
  stream_write grub_default_path (grub_cmdline_line kernel_cmdline).

Definition grub2_install (target root : string) : M unit :=
  run_in_chroot target [ "grub2-install"; "--recheck"; root ].

Definition grub2_mkconfig (target : string) : M unit :=
  run_in_chroot target [ "grub2-mkconfig"; "-o"; "/boot/grub2/grub.cfg" ].

Definition grub2_install_efi (target : string) : M unit :=
  run_in_chroot target
    [ "grub2-install"; "--target=x86_64-efi";
      "--efi-directory"; "/boot/efi"; "--recheck" ].

Definition tmp_efi_of (target : string) : string :=
  os_path_join target [ "boot"; "efi_part" ].
Definition efi_path_of (target : string) : string :=
  os_path_join target [ "boot"; "efi" ].

(** The body of the first [try]: the EFI data is copied onto the
    temporarily mounted partition.  The later revision falls back on
    the directory [yxp] under the target. *)
Definition copy_efi_body (rev : revision) (target : string) : M unit :=
  let tmp_efi := tmp_efi_of target in
  let efi_path := efi_path_of target in
  e ← os_path_exists (os_path_join tmp_efi [ "EFI" ]);
  (if e then shutil_rmtree (os_path_join tmp_efi [ "EFI" ]) else pass);;
  match rev with
  | R33 =>
      shutil_copytree (os_path_join efi_path [ "EFI" ])
                      (os_path_join tmp_efi [ "EFI" ])
  | R46 =>
      e' ← os_path_exists (os_path_join efi_path [ "EFI" ]);
      if e' then
        shutil_copytree (os_path_join efi_path [ "EFI" ])
                        (os_path_join tmp_efi [ "EFI" ])
      else
        shutil_copytree (os_path_join target [ "yxp" ])
                        (os_path_join tmp_efi [ "EFI" ])
  end.

(** "Create temp mount point for uefi partition", "Copy the data
    over", "Clean up tmp mount": lines 158-174 of the earlier revision,
    168-192 of the later one. *)
Definition copy_efi_data (rev : revision) (target uefi_path : string) : M unit :=
  let tmp_efi := tmp_efi_of target in
  os_mkdir tmp_efi;;
  util_subp [ "mount"; uefi_path; tmp_efi ];;
  try_finally
    (copy_efi_body rev target)
    (util_subp [ "umount"; tmp_efi ];;
     os_rmdir tmp_efi).

(** "Mount and do grub install", earlier revision: lines 176-185. *)
Definition install_efi_R33 (target uefi_path : string) : M unit :=
  let efi_path := efi_path_of target in
  copy_efi_data R33 target uefi_path;;
  util_subp [ "mount"; uefi_path; efi_path ];;
  try_finally
    (grub2_install_efi target)
    (util_subp [ "umount"; efi_path ]).

Definition check_efi_dir (target : string) : M bool :=
  let efi := os_path_join target [ "boot"; "efi" ] in
  let EFI := os_path_join target [ "boot"; "efi"; "EFI" ] in
  try_except
    (l ← os_listdir efi;
     print (PList l);;
     e ← os_path_exists EFI;
     print (PBool e);;
     print (PStr "if exists EFI dir");;
     e' ← os_path_exists EFI;
     if e' then
       print (PStr "check efi EFI dir");;
       l' ← os_listdir EFI;
       print (PList l');;
       ret true
     else ret false)
    (λ e, print (PExn e);; ret false).

(** The mount of the later revision, lines 195-205; the value is
    [mount_flag]. *)
Definition mount_efi_R46 (target uefi_path : string) : M bool :=
  let efi_path := efi_path_of target in
  try_except
    (util_subp [ "mount"; uefi_path; efi_path ];; ret true)
    (λ _,
       try_except
         (util_subp [ "umount"; efi_path ];;
          util_subp [ "mount"; uefi_path; efi_path ];;
          ret true)
         (λ e,
            print (PExn e);;
            print (PStr ("cant not mount " +:+ uefi_path));;
            ret false)).

(** "check the EFI directory" and the grub install of the later
    revision, lines 207-222. *)
Definition grub_efi_R46 (target : string) (mount_flag : bool) : M unit :=
  let efi_path := efi_path_of target in
  found ← check_efi_dir target;
  (if negb found then
     shutil_copytree (os_path_join target [ "yxp" ])
                     (os_path_join efi_path [ "EFI" ]);;
     print (PStr "check why dont have the file")
   else pass);;
  try_finally
    (grub2_install_efi target)
    (if mount_flag then util_subp [ "umount"; efi_path ] else pass).

Definition install_efi_R46 (target uefi_path : string) : M unit :=
  copy_efi_data R46 target uefi_path;;
  mount_flag ← mount_efi_R46 target uefi_path;
  grub_efi_R46 target mount_flag.

Definition install_efi (rev : revision) : string → string → M unit :=
  match rev with
  | R33 => install_efi_R33
  | R46 => install_efi_R46
  end.

Definition set_autorelabel (target : string) : M unit :=
  open_append (os_path_join target [ ".autorelabel" ]).

Definition get_boot_mac (rev : revision) : M (option string) :=
  cmdline ← read_file rev proc_cmdline;
  let cmdline := PyStr.split_ws (unicode_text rev) cmdline in
  match filter (λ opt, PyStr.startswith opt "BOOTIF" = true) cmdline !! 0 with
  | None => ret None
  | Some bootif =>
      match PyStr.split_char "=" bootif with
      | [ _; mac ] =>
          let mac := drop 1 (PyStr.split_char "-" mac) in
          ret (Some (PyStr.join ":" mac))
      | _ => raise (ValueError "wrong number of values to unpack")
      end
  end.

Definition get_interface_names (rev : revision) : M (gmap string string) :=
  let sys_path := "/sys/class/net" in
  inames ← os_listdir sys_path;
  for_each inames
    (λ (ifaces : gmap string string) iname,
       mac ← read_file rev (os_path_join sys_path [ iname; "address" ]);
       let mac := PyStr.lower (PyStr.strip (unicode_text rev) mac) in
       ret (<[ mac := iname ]> ifaces)) ∅.

Definition setting (key value : string) : string :=
  key +:+ "=" +:+ PyStr.quoted value.

Definition get_ipv4_config (rev : revision) (iface : string)
    (data : gmap string pyobj) : M string :=
  let config :=
    [ setting "TYPE" "Ethernet";
      setting "NM_CONTROLLED" "no";
      setting "USERCTL" "yes" ] in
  let config :=
    match data !! "hwaddress" with
    | Some hwaddress => config ++ [ setting "HWADDR" (py_str hwaddress) ]
    | None => config ++ [ setting "DEVICE" iface ]
    end in
  auto ← dict_get data "auto";
  let config :=
    if truthy auto then config ++ [ setting "ONBOOT" "yes" ]
    else config ++ [ setting "ONBOOT" "no" ] in
  method ← dict_get data "method";
  config ←
    (if bool_decide (method = VStr "dhcp") then
       let config :=
         config ++ [ setting "BOOTPROTO" "dhcp";
                     setting "PEERDNS" "yes";
                     setting "PERSISTENT_DHCLIENT" "1" ] in
       ret match data !! "hostname" with
           | Some hostname => config ++ [ setting "DHCP_HOSTNAME" (py_str hostname) ]
           | None => config
           end
     else if bool_decide (method = VStr "static") then
       let config :=
         config ++ [ setting "BOOTPROTO"
                       match rev with R33 => "none" | R46 => "static" end ] in
       address ← dict_get data "address";
       let config := config ++ [ setting "IPADDR" (py_str address) ] in
       netmask ← dict_get data "netmask";
       let config := config ++ [ setting "NETMASK" (py_str netmask) ] in
       let config :=
         match data !! "broadcast" with
         | Some broadcast => config ++ [ setting "BROADCAST" (py_str broadcast) ]
         | None => config
         end in
       ret match data !! "gateway" with
           | Some gateway => config ++ [ setting "GATEWAY" (py_str gateway) ]
           | None => config
           end
     else if bool_decide (method = VStr "manual") then
       ret (config ++ [ setting "BOOTPROTO" "none" ])
     else ret config);
  ret (PyStr.join PyStr.nl config).

(** The warning of the unsupported branch applies a string literal to
    a tuple, so reaching it raises [TypeError] before anything is
    printed. *)
Definition write_interface_config (rev : revision) (target iface : string)
    (data : gmap string pyobj) : M unit :=
  family ← dict_get data "family";
  if negb (bool_decide (family = VStr "inet")) then
    raise (TypeError "'str' object is not callable")
  else
    config ← get_ipv4_config rev iface data;
    let path :=
      os_path_join target
        [ "etc"; "sysconfig"; "network-scripts"; "ifcfg-" +:+ iface ] in
    open_write path;;
    stream_write path (config +:+ PyStr.nl).

Definition key_of {A} (k : string) (o : option A) : M A :=
  match o with
  | Some v => ret v
  | None => raise (KeyError k)
  end.

(** [v.replace(old, new)]: only a string has the method. *)
Definition str_replace (v : pyobj) (old new : string) : M string :=
  match v with
  | VStr s => ret (PyStr.replace old new s)
  | VNone => raise (AttributeError "'NoneType' object has no attribute 'replace'")
  | VBool _ => raise (AttributeError "'bool' object has no attribute 'replace'")
  end.

Definition bad_thing (address gateway : pyobj) : exn :=
  PyException ("some bad thing happen, address:" +:+ py_str address
               +:+ ", gateway:" +:+ py_str gateway).

(** The loop variables: [address_flag], [gateway_flag], [address] and
    [gateway]. *)
Definition get_address_gatway_message (network_config : list config_line)
    (iname : string) : M (pyobj * pyobj) :=
  vars ← for_each network_config
    (λ (vars : bool * bool * pyobj * pyobj) config_line,
       if bool_decide (default (VStr "") (cl_name config_line) = VStr iname) then
         subnets ← key_of "subnets" (cl_subnets config_line);
         for_each subnets
           (λ (_ : bool * bool * pyobj * pyobj) sub,
              gateway ← key_of "gateway" (sn_gateway sub);
              address ← key_of "address" (sn_address sub);
              address ← str_replace address "/24" "";
              ret (true, true, VStr address, gateway))
           vars
       else ret vars)
    (false, false, VNone, VNone);
  let '(address_flag, gateway_flag, address, gateway) := vars in
  if negb (address_flag && gateway_flag) then
    raise (bad_thing address gateway)
  else ret (address, gateway).

Definition write_network_config_R33 (target mac : string) : M unit :=
  inames ← get_interface_names R33;
  iname ← dict_get inames (PyStr.lower mac);
  write_interface_config R33 target iname
    (<[ "family" := VStr "inet" ]>
      (<[ "hwaddress" := VStr (PyStr.upper mac) ]>
        (<[ "auto" := VBool true ]>
          (<[ "method" := VStr "dhcp" ]> ∅)))).

Definition write_network_config_R46 (target mac : string)
    (network_config : option (list config_line)) : M unit :=
  inames ← get_interface_names R46;
  iname ← dict_get inames (PyStr.lower mac);
  match network_config with
  | None =>
      raise (PyException "can not find network config, some bad thing happened")
  | Some network_config =>
      ag ← get_address_gatway_message network_config iname;
      write_interface_config R46 target iname
        (<[ "family" := VStr "inet" ]>
          (<[ "hwaddress" := VStr (PyStr.upper mac) ]>
            (<[ "auto" := VBool true ]>
              (<[ "method" := VStr "static" ]>
                (<[ "address" := ag.1 ]>
                  (<[ "gateway" := ag.2 ]>
                    (<[ "netmask" := VStr "255.255.255.0" ]> ∅)))))))
  end.

Definition get_nertwork_config (curtin_config : curtin_config)
  : M (option (list config_line)) :=
  network ← key_of "network" (cc_network curtin_config);
  key_of "config" (ns_config network).

(** [os.path.join] is applied to [target] before anything else, so a
    missing target raises [TypeError] here. *)
Definition tmp_dir_EFI_dir (target : option string) : M unit :=
  match target with
  | None => raise (TypeError "expected str, bytes or os.PathLike object, not NoneType")
  | Some target =>
      let EFI_path := os_path_join target [ "boot"; "efi"; "EFI" ] in
      e ← os_path_exists EFI_path;
      if e then
        shutil_copytree EFI_path (os_path_join target [ "yxp" ]);;
        print (PStr "ok")
      else print (PStr "no such file or directory")
  end.

Definition print_opt (o : option string) : M unit :=
  print match o with Some s => PStr s | None => PNone end.

(** The part of [main] that both revisions share once the boot MAC is
    known: block devices, fstab, grub and the boot loader (lines
    307-325 of the earlier revision, 403-423 of the later one). *)
Definition main_install (rev : revision) (target fstab : string) : M unit :=
  devices ← get_block_devices target;
  if bool_decide (devices = []) then
    print (PStr ("Unable to find block device for: " +:+ target));;
    sys_exit 1
  else
    write_fstab rev target fstab;;
    params ← get_extra_kernel_parameters rev;
    extra ← list_new params;
    update_grub_default rev target extra;;
    grub2_mkconfig target;;
    if is_uefi_bootable env then
      uefi_part ← get_uefi_partition;
      match uefi_part with
      | None =>
          print (PStr "Unable to determine UEFI parition.");;
          sys_exit 1
      | Some uefi_part =>
          match rev with
          | R33 => pass
          | R46 =>
              print (PStr "分区信息");;
              print (PBlock uefi_part);;
              print (PStr "testing efi dir")
          end;;
          install_efi rev target (device_path uefi_part)
      end
    else
      for_each devices (λ _ dev, grub2_install target dev) tt.

Definition main_R33 : M unit :=
  let state := command_environment env in
  let target := st_target state in
  match target with
  | None =>
      print (PStr "Target was not provided in the environment.");;
      sys_exit 1
  | Some target =>
      let fstab := st_fstab state in
      match fstab with
      | None =>
          print (PStr "/etc/fstab output was not provided in the environment.");;
          sys_exit 1
      | Some fstab =>
          bootmac ← get_boot_mac R33;
          match bootmac with
          | None =>
              print (PStr "Unable to determine boot interface.");;
              sys_exit 1
          | Some bootmac =>
              main_install R33 target fstab;;
              set_autorelabel target;;
              write_network_config_R33 target bootmac
          end
      end
  end.

Definition main_R46 : M unit :=
  let state := command_environment env in
  let target := st_target state in
  print_opt target;;
  tmp_dir_EFI_dir target;;
  print (PStr "target message");;
  match target with
  | None =>
      print (PStr "Target was not provided in the environment.");;
      sys_exit 1
  | Some target =>
      let fstab := st_fstab state in
      match fstab with
      | None =>
          print (PStr "/etc/fstab output was not provided in the environment.");;
          sys_exit 1
      | Some fstab =>
          bootmac ← get_boot_mac R46;
          match bootmac with
          | None =>
              print (PStr "Unable to determine boot interface.");;
              sys_exit 1
          | Some bootmac =>
              main_install R46 target fstab;;
              curtin_config ← load_config (st_config state);
              print (PConfig curtin_config);;
              network_config ← get_nertwork_config curtin_config;
              print (PNetwork network_config);;
              set_autorelabel target;;
              write_network_config_R46 target bootmac network_config
          end
      end
  end.

Definition main (rev : revision) : M unit :=
  match rev with
  | R33 => main_R33
  | R46 => main_R46
  end.

End Hook.

(** ** Concrete machines *)

Definition fstab_example : string :=
  PyStr.lines [ "UUID=6f2b / ext4 defaults 0 0" ].

(** The text of the provisioning config; what [json.load] makes of it is
    part of the environment. *)
Definition config_text : string :=
  "{" +:+ PyStr.quoted "network" +:+ ": {" +:+ PyStr.quoted "config" +:+ ": []}}".

(** A machine booted over the network from interface [eth0]. *)
Definition st_pxe (cmdline : string) : State :=
  {| files :=
       <[ proc_cmdline := cmdline ]>
         (<[ "/tmp/fstab" := fstab_example ]>
           (<[ "/tmp/curtin.json" := config_text ]>
             (<[ "/sys/class/net/eth0/address" := PyStr.lines [ "AA:bb:cc:dd:ee:ff" ] ]> ∅)));
     dirs := ∅;
     mounts := [];
     heap := module_heap;
     stdout := [];
     trace := [] |}.

Definition cmdline_example : string :=
  "ro BOOTIF=01-aa-bb-cc-dd-ee-ff quiet -- console=tty0 BOOTIF=01-aa initrd=img".

Definition config_example : curtin_config :=
  {| cc_network := Some {| ns_config := Some (Some
       [ {| cl_name := Some (VStr "eth0");
            cl_subnets := Some [ {| sn_gateway := Some (VStr "10.0.0.1");
                                    sn_address := Some (VStr "10.0.0.5/24") |} ] |} ]) |} |}.

(** An environment in which every value is present, every device is
    found and the calls listed in [refused] fail. *)
Definition env_with (uefi : bool) (cfg : curtin_config)
    (refused : State → syscall → bool) : Env :=
  {| command_environment :=
       {| st_target := Some "/t";
          st_fstab := Some "/tmp/fstab";
          st_config := Some "/tmp/curtin.json" |};
     is_uefi_bootable := uefi;
     get_devices_for_mp := λ _, inr [ "/dev/sda1"; "/dev/sda2" ];
     get_blockdev_for_partition := λ _, inr ("/dev/sda", "1");
     lsblock := inr [ ("sda1", {| LABEL := "uefi-boot"; device_path := "/dev/sda1" |}) ];
     json_load := λ _, inr cfg;
     sys_fails := refused;
     write_error := λ _ _ _, None;
     path_exists := λ _ _, true;
     dir_listing := λ _ _, inr [ "eth0" ] |}.

Definition env_ok (uefi : bool) : Env := env_with uefi config_example (λ _ _, false).

(** ** Predicates used in the statements *)

(** [c in s] for a character [c] *)
Fixpoint contains_char (c : ascii) (s : string) : bool :=
  match s with
  | EmptyString => false
  | String a s' => Ascii.eqb a c || contains_char c s'
  end.

(** [m] leaves the component [proj] of the state as it found it. *)
Definition keeps {X A} (proj : State → X) (m : M A) : Prop :=
  ∀ st, proj (m st).2 = proj st.

(** [m] never ends by [sys.exit]. *)
Definition no_exit {A} (m : M A) : Prop :=
  ∀ st c, (m st).1 ≠ Exit c.

(** What is left of [main] once the boot MAC is known. *)
Definition main_rest (env : Env) (rev : revision) (target fstab bootmac : string)
  : M unit :=
  match rev with
  | R33 =>
      main_install env R33 target fstab;;
      set_autorelabel env target;;
      write_network_config_R33 env target bootmac
  | R46 =>
      main_install env R46 target fstab;;
      curtin_config ← load_config env (st_config (command_environment env));
      print (PConfig curtin_config);;
      network_config ← get_nertwork_config curtin_config;
      print (PNetwork network_config);;
      set_autorelabel env target;;
      write_network_config_R46 env target bootmac network_config
  end.

(** What [main] does before it reads the boot MAC; only the later
    revision does anything there. *)
Definition main_prefix (env : Env) (rev : revision) (target : string) : M unit :=
  match rev with
  | R33 => pass
  | R46 =>
      print_opt (Some target);;
      tmp_dir_EFI_dir env (Some target);;
      print (PStr "target message")
  end.

Definition grub_default_path (target : string) : string :=
  os_path_join target [ "etc"; "default"; "grub" ].

(** The tokens the later revision adds to every kernel command line. *)
Definition fixed_tokens (rev : revision) : list string :=
  match rev with
  | R33 => []
  | R46 => [ "fsck.mode=skip"; "rootfstype=ext4" ]
  end.

(** A token that [get_extra_kernel_parameters] asks to remove. *)
Definition unwanted (param : string) : bool :=
  existsb (λ strip, PyStr.startswith param strip)
          [ "initrd="; "BOOT_IMAGE="; "BOOTIF=" ].

(** The state after [n] calls of the later [update_grub_default] that
    leave [extra] out, one after the other. *)
Fixpoint after_default_calls (env : Env) (target : string) (n : nat)
    (st : State) : State :=
  match n with
  | O => st
  | S k =>
      (update_grub_default env R46 target extra_default
         (after_default_calls env target k st)).2
  end.

(** A machine whose heap holds the default list and one more list. *)
Definition st_heap (l : list string) : State :=
  {| files := ∅; dirs := ∅; mounts := [];
     heap := module_heap ++ [ l ]; stdout := []; trace := [] |}.

Definition fstab_path_of (target : string) : string :=
  os_path_join target [ "etc"; "fstab" ].

(** An fstab whose label has a letter outside ASCII (the two bytes of
    U+00E9 in UTF-8). *)
Definition fstab_accent : string :=
  PyStr.lines
    [ "LABEL=caf" +:+ String (ascii_of_nat 195) (String (ascii_of_nat 169) "")
      +:+ " /data ext4 defaults 0 0" ].

Definition st_accent : State :=
  {| files := <[ "/tmp/fstab" := fstab_accent ]> ∅;
     dirs := ∅; mounts := []; heap := module_heap; stdout := []; trace := [] |}.

(** The two components of the state that [install_efi] is to restore. *)
Definition mounts_dirs (st : State) : list (string * string) * gset string :=
  (mounts st, dirs st).


Definition fallback_copy_call (target : string) : syscall :=
  SysCopytree (os_path_join target [ "yxp" ])
              (os_path_join (efi_path_of target) [ "EFI" ]).

Definition grub_efi_call (target : string) : syscall :=
  SysChroot target
    [ "grub2-install"; "--target=x86_64-efi";
      "--efi-directory"; "/boot/efi"; "--recheck" ].





Definition st_empty : State :=
  {| files := ∅; dirs := ∅; mounts := []; heap := module_heap;
     stdout := []; trace := [] |}.


(** The UEFI partition is already mounted on the efi directory, a second
    mount there is refused, the directory [EFI] is seen only through the
    mounted partition and there is no directory [yxp] to copy from. *)
Definition st_efi_mounted : State :=
  {| files := ∅; dirs := ∅; mounts := [ ("/dev/sda1", "/t/boot/efi") ];
     heap := module_heap; stdout := []; trace := [] |}.

Definition env_efi_busy : Env :=
  {| command_environment :=
       {| st_target := Some "/t";
          st_fstab := Some "/tmp/fstab";
          st_config := Some "/tmp/curtin.json" |};
     is_uefi_bootable := true;
     get_devices_for_mp := λ _, inr [ "/dev/sda1"; "/dev/sda2" ];
     get_blockdev_for_partition := λ _, inr ("/dev/sda", "1");
     lsblock := inr [ ("sda1", {| LABEL := "uefi-boot"; device_path := "/dev/sda1" |}) ];
     json_load := λ _, inr config_example;
     sys_fails := λ _ c,
       bool_decide (c = SysSubp [ "mount"; "/dev/sda1"; "/t/boot/efi" ])
       || bool_decide (c = fallback_copy_call "/t");
     write_error := λ _ _ _, None;
     path_exists := λ st p,
       if bool_decide (p = "/t/boot/efi/EFI") then is_mounted "/t/boot/efi" st
       else negb (bool_decide (p = "/t/yxp"));
     dir_listing := λ _ _, inr [] |}.

(** The first mount on the efi directory succeeds, the directory [EFI]
    is not there, and the copy from [yxp] onto it is refused. *)
Definition env_copy_refused : Env :=
  {| command_environment :=
       {| st_target := Some "/t";
          st_fstab := Some "/tmp/fstab";
          st_config := Some "/tmp/curtin.json" |};
     is_uefi_bootable := true;
     get_devices_for_mp := λ _, inr [ "/dev/sda1"; "/dev/sda2" ];
     get_blockdev_for_partition := λ _, inr ("/dev/sda", "1");
     lsblock := inr [ ("sda1", {| LABEL := "uefi-boot"; device_path := "/dev/sda1" |}) ];
     json_load := λ _, inr config_example;
     sys_fails := λ _ c, bool_decide (c = fallback_copy_call "/t");
     write_error := λ _ _ _, None;
     path_exists := λ _ p, negb (bool_decide (p = "/t/boot/efi/EFI"));
     dir_listing := λ _ _, inr [] |}.

(** The state in which the later revision goes on after a mount failure
    that it swallowed: the exception and the message are printed on top
    of [sb], the state the failed retry left. *)
Definition swallowed (uefi_path : string) (e : exn) (sb : State) : State :=
  set_stdout (stdout sb ++ [ PExn e; PStr ("cant not mount " +:+ uefi_path) ]) sb.

(** [m] neither reads nor changes the state. *)
Definition stateless {A} (m : M A) : Prop :=
  ∃ r, ∀ st, m st = (r, st).

(** The conditions under which the hook is said to exit with status 1: a
    required value is missing from the environment, or the boot
    interface, a block device for the target or (on a UEFI machine) the
    UEFI partition is not found. *)
Definition missing_or_undiscoverable (env : Env) (rev : revision) (st : State)
  : Prop :=
  st_target (command_environment env) = None
  ∨ st_fstab (command_environment env) = None
  ∨ (get_boot_mac rev st).1 = Ok None
  ∨ (∃ target, st_target (command_environment env) = Some target
               ∧ (get_block_devices env target st).1 = Ok [])
  ∨ (is_uefi_bootable env = true ∧ (get_uefi_partition env st).1 = Ok None).

Definition grub2_mkconfig_call (target : string) : syscall :=
  SysChroot target [ "grub2-mkconfig"; "-o"; "/boot/grub2/grub.cfg" ].

(** Everything is present and found, and [grub2-mkconfig] fails. *)
Definition env_mkconfig_refused : Env :=
  env_with false config_example
    (λ _ c, bool_decide (c = grub2_mkconfig_call "/t")).










(** A provisioning config whose ['config'] is [null], one whose only
    entry has no subnet, one with an entry for another interface only,
    one whose subnet has no gateway and one whose subnet has a [null]
    gateway. *)
Definition config_null : curtin_config :=
  {| cc_network := Some {| ns_config := Some None |} |}.

Definition config_no_subnet : curtin_config :=
  {| cc_network := Some {| ns_config := Some (Some
       [ {| cl_name := Some (VStr "eth0"); cl_subnets := Some [] |} ]) |} |}.





Definition env_config_null : Env := env_with false config_null (λ _ _, false).
Definition env_config_no_subnet : Env :=
  env_with false config_no_subnet (λ _ _, false).

Definition ifcfg_path (target iname : string) : string :=
  os_path_join target
    [ "etc"; "sysconfig"; "network-scripts"; "ifcfg-" +:+ iname ].

(** The tokens that follow the first ["--"]. *)
Fixpoint after_separator (tokens : list string) : list string :=
  match tokens with
  | [] => []
  | token :: rest =>
      if bool_decide (token = "--") then rest else after_separator rest
  end.

(** The extra kernel parameters of a kernel command line: its tokens
    after the first ["--"], without those that start with ["initrd="],
    ["BOOT_IMAGE="] or ["BOOTIF="]. *)
Definition extra_kernel_tokens (rev : revision) (cmdline : string) : list string :=
  filter (λ p, unwanted p = false)
         (after_separator (PyStr.split_ws (unicode_text rev) cmdline)).

(** What is left of [main_install] once the grub defaults are written:
    [grub2-mkconfig] and the boot loader. *)
Definition main_boot_loader (env : Env) (rev : revision) (target : string)
    (devices : list string) : M unit :=
  grub2_mkconfig env target;;
  if is_uefi_bootable env then
    uefi_part ← get_uefi_partition env;
    match uefi_part with
    | None =>
        print (PStr "Unable to determine UEFI parition.");;
        sys_exit 1
    | Some uefi_part =>
        match rev with
        | R33 => pass
        | R46 =>
            print (PStr "分区信息");;
            print (PBlock uefi_part);;
            print (PStr "testing efi dir")
        end;;
        install_efi env rev target (device_path uefi_part)
    end
  else
    for_each devices (λ _ dev, grub2_install env target dev) tt.

(** The file can be opened in mode [mode] and written to, whatever the
    state. *)
Definition writable (env : Env) (path mode : string) : Prop :=
  (∀ st, sys_fails env st (SysOpen path mode) = false)
  ∧ (∀ st data, write_error env st path data = None).





(** [s.count(c)] for a character [c] *)
Fixpoint count_char (c : ascii) (s : string) : nat :=
  match s with
  | EmptyString => 0
  | String a s' => (if Ascii.eqb a c then 1 else 0) + count_char c s'
  end.


Definition config_two_subnets : list config_line :=
  [ {| cl_name := Some (VStr "eth0");
       cl_subnets := Some [ {| sn_gateway := Some (VStr "10.0.0.1");
                               sn_address := Some (VStr "10.0.0.5/24") |};
                            {| sn_gateway := Some (VStr "192.168.1.1");
                               sn_address := Some (VStr "192.168.1.7/24") |} ] |};
    {| cl_name := Some (VStr "eth1");
       cl_subnets := Some [ {| sn_gateway := Some (VStr "172.16.0.1");
                               sn_address := Some (VStr "172.16.0.9/16") |} ] |} ].

Definition grub2_install_call (target dev : string) : syscall :=
  SysChroot target [ "grub2-install"; "--recheck"; dev ].

(** The grub of device [sdb] cannot be installed. *)
Definition env_sdb_refused : Env :=
  env_with false config_example
    (λ _ c, bool_decide (c = grub2_install_call "/t" "/dev/sdb")).

(** ** Basic facts *)

Lemma bind_ok {A B} (m : M A) (f : A → M B) st a st1 :
  m st = (Ok a, st1) → bind m f st = f a st1.
Proof. intros H. unfold bind. by rewrite H. Qed.


Lemma bind_inv {A B} (m : M A) (f : A → M B) st r st' :
  bind m f st = (r, st') →
  (∃ a st1, m st = (Ok a, st1) ∧ f a st1 = (r, st')) ∨
  (∃ c, m st = (Exit c, st') ∧ r = Exit c) ∨
  (∃ e, m st = (Raise e, st') ∧ r = Raise e).
Proof.
  unfold bind. destruct (m st) as [[a | c | e] st1] eqn:E; intros H.
  - left. eauto.
  - right. left. inversion H; subst. eauto.
  - right. right. inversion H; subst. eauto.
Qed.

(** Reading never changes the state, and its result only depends on the
    files. *)
Lemma read_file_state rev path st : (read_file rev path st).2 = st.
Proof.
  destruct rev; unfold read_file, bind, open_read, py2_str_encode;
    destruct (files st !! path); simpl; try done.
  destruct (PyStr.is_ascii s); done.
Qed.

Lemma read_file_files rev path st1 st2 :
  files st1 = files st2 →
  (read_file rev path st1).1 = (read_file rev path st2).1.
Proof.
  intros H. destruct rev; unfold read_file, bind, open_read, py2_str_encode;
    rewrite H; destruct (files st2 !! path); simpl; try done.
  destruct (PyStr.is_ascii s); done.
Qed.

(** When [read_file] succeeds it returns the content of the file; the
    earlier revision succeeds on the files without a byte above 127, the
    later one on every file. *)
Lemma read_file_ok rev path st data :
  read_file rev path st = (Ok data, st) ↔
  files st !! path = Some data ∧ (rev = R33 → PyStr.is_ascii data = true).
Proof.
  destruct rev; unfold read_file, bind, open_read, py2_str_encode;
    destruct (files st !! path) as [d|] eqn:E; simpl.
  - destruct (PyStr.is_ascii d) eqn:Ea; unfold ret, raise; split.
    + intros [= ->]. auto.
    + intros [[= ->] _]. done.
    + intros [=].
    + intros [[= ->] Hd]. specialize (Hd eq_refl). congruence.
  - split; [intros [=] | intros [[=] _]].
  - split; [intros [= ->]; split; [done | intros [=]] | intros [[= ->] _]; done].
  - split; [intros [=] | intros [[=] _]].
Qed.

(** The head of a filtered list is the first element that passes. *)
Lemma filter_head_find (P : string → bool) (l : list string) :
  filter (λ x, P x = true) l !! 0 = List.find P l.
Proof.
  induction l as [| x l IH]; [done |]. simpl.
  rewrite filter_cons. destruct (decide (P x = true)) as [Hx | Hx].
  - by rewrite Hx.
  - apply not_true_is_false in Hx. by rewrite Hx.
Qed.

(** ** The boot MAC *)

(** C4.  Whenever the kernel command line that [get_boot_mac] reads has
    ["BOOTIF=01-aa-bb-cc-dd-ee-ff"] as its first token starting with
    ["BOOTIF"], the function returns the MAC ["aa:bb:cc:dd:ee:ff"], in
    both revisions, and leaves the state as it was. *)
Theorem get_boot_mac_bootif (rev : revision) (st : State)
    (cmdline : string) :
  read_file rev proc_cmdline st = (Ok cmdline, st) →
  List.find (λ tok, PyStr.startswith tok "BOOTIF")
            (PyStr.split_ws (unicode_text rev) cmdline)
    = Some "BOOTIF=01-aa-bb-cc-dd-ee-ff" →
  get_boot_mac rev st = (Ok (Some "aa:bb:cc:dd:ee:ff"), st).
Proof.
  intros Hread Hfirst. unfold get_boot_mac.
  rewrite (bind_ok _ _ _ _ _ Hread).
  rewrite filter_head_find, Hfirst. reflexivity.
Qed.

Lemma get_boot_mac_bootif_witness :
  get_boot_mac R33 (st_pxe cmdline_example)
  = (Ok (Some "aa:bb:cc:dd:ee:ff"), st_pxe cmdline_example).
Proof.
  apply (get_boot_mac_bootif R33 (st_pxe cmdline_example)
           cmdline_example); vm_compute; reflexivity.
Defined.

(** ** Extra kernel parameters *)

(** C5.  Whenever the kernel command line that
    [get_extra_kernel_parameters] reads has no ["--"] token, the function
    returns the empty list, in both revisions. *)
Theorem get_extra_kernel_parameters_no_separator (rev : revision)
    (st : State) (cmdline : string) :
  read_file rev proc_cmdline st = (Ok cmdline, st) →
  "--" ∉ PyStr.split_ws (unicode_text rev) cmdline →
  get_extra_kernel_parameters rev st = (Ok [], st).
Proof.
  intros Hread Hno. unfold get_extra_kernel_parameters.
  rewrite (bind_ok _ _ _ _ _ Hread).
  rewrite bool_decide_eq_false_2 by done. reflexivity.
Qed.

Lemma get_extra_kernel_parameters_no_separator_witness :
  get_extra_kernel_parameters R46 (st_pxe "ro quiet BOOTIF=01-aa")
  = (Ok [], st_pxe "ro quiet BOOTIF=01-aa").
Proof.
  apply (get_extra_kernel_parameters_no_separator R46
           (st_pxe "ro quiet BOOTIF=01-aa") "ro quiet BOOTIF=01-aa").
  - vm_compute. reflexivity.
  - intros H. apply (bool_decide_pack _) in H. vm_compute in H. exact H.
Defined.

(** ** Framing: what an operation leaves untouched *)

Lemma bind_assoc {A B C} (m : M A) (f : A → M B) (g : B → M C) st :
  bind (bind m f) g st = bind m (λ a, bind (f a) g) st.
Proof. unfold bind. destruct (m st) as [[a | c | e] st1]; done. Qed.

Lemma bind_ext_keeps {X A B} (proj : State → X) (m : M A) (f g : A → M B) st :
  keeps proj m →
  (∀ a st1, proj st1 = proj st → f a st1 = g a st1) →
  bind m f st = bind m g st.
Proof.
  intros Hm Hfg. unfold bind. specialize (Hm st).
  destruct (m st) as [[a | c | e] st1]; simpl in *; auto.
Qed.

Section Frame.

Context {X : Type} (proj : State → X).
Hypothesis proj_stdout : ∀ o st, proj (set_stdout o st) = proj st.
Hypothesis proj_log : ∀ c b st, proj (log c b st) = proj st.

Lemma keeps_ret {A} (a : A) : keeps proj (ret a).
Proof. done. Qed.

Lemma keeps_pass : keeps proj pass.
Proof. done. Qed.

Lemma keeps_raise {A} (e : exn) : keeps proj (@raise A e).
Proof. done. Qed.

Lemma keeps_sys_exit {A} (c : Z) : keeps proj (@sys_exit A c).
Proof. done. Qed.

Lemma keeps_lift {A} (r : exn + A) : keeps proj (lift r).
Proof. by destruct r. Qed.

Lemma keeps_key_of {A} k (o : option A) : keeps proj (key_of k o).
Proof. by destruct o. Qed.

Lemma keeps_dict_get {V} (d : gmap string V) k : keeps proj (dict_get d k).
Proof. unfold dict_get. by destruct (d !! k). Qed.

Lemma keeps_print v : keeps proj (print v).
Proof. intros st. apply proj_stdout. Qed.

Lemma keeps_print_opt o : keeps proj (print_opt o).
Proof. apply keeps_print. Qed.

Lemma keeps_bind {A B} (m : M A) (f : A → M B) :
  keeps proj m → (∀ a, keeps proj (f a)) → keeps proj (bind m f).
Proof.
  intros Hm Hf st. unfold bind. specialize (Hm st).
  destruct (m st) as [[a | c | e] st1]; simpl in *; try done.
  by rewrite Hf.
Qed.

Lemma keeps_try_finally {A} (body : M A) (cleanup : M unit) :
  keeps proj body → keeps proj cleanup → keeps proj (try_finally body cleanup).
Proof.
  intros Hb Hc st. unfold try_finally. specialize (Hb st).
  destruct (body st) as [r st1]. specialize (Hc st1).
  destruct (cleanup st1) as [[[] | c | e] st2]; simpl in *; congruence.
Qed.

Lemma keeps_try_except {A} (body : M A) (handler : exn → M A) :
  keeps proj body → (∀ e, keeps proj (handler e)) →
  keeps proj (try_except body handler).
Proof.
  intros Hb Hh st. unfold try_except. specialize (Hb st).
  destruct (body st) as [[a | c | e] st1]; simpl in *; try done.
  by rewrite Hh.
Qed.

Lemma keeps_for_each {A S} (l : list A) (body : S → A → M S) acc :
  (∀ s x, keeps proj (body s x)) → keeps proj (for_each l body acc).
Proof.
  intros Hb. revert acc. induction l as [| x l IH]; intros acc; simpl.
  - apply keeps_ret.
  - apply keeps_bind; auto.
Qed.

Lemma keeps_if {A} (b : bool) (m1 m2 : M A) :
  keeps proj m1 → keeps proj m2 → keeps proj (if b then m1 else m2).
Proof. by destruct b. Qed.

(** A refusable call with no effect of its own only grows the trace. *)
Lemma keeps_sys env c forced e (effect : State → State) :
  (∀ st, proj (effect st) = proj st) → keeps proj (sys env c forced e effect).
Proof.
  intros He st. unfold sys.
  destruct (forced st || sys_fails env st c); simpl; [| rewrite He]; apply proj_log.
Qed.

Lemma keeps_os_path_exists env p : keeps proj (os_path_exists env p).
Proof. done. Qed.

Lemma keeps_os_listdir env p : keeps proj (os_listdir env p).
Proof. intros st. unfold os_listdir. apply keeps_lift. Qed.

Lemma keeps_open_read p : keeps proj (open_read p).
Proof. intros st. unfold open_read. by destruct (files st !! p). Qed.

Lemma keeps_read_file rev p : keeps proj (read_file rev p).
Proof. intros st. by rewrite read_file_state. Qed.

End Frame.

Lemma keeps_stream_write {X} (proj : State → X) env path data :
  (∀ f st, proj (set_files f st) = proj st) →
  keeps proj (stream_write env path data).
Proof.
  intros H st. unfold stream_write.
  destruct (write_error env st path data); [done | apply H].
Qed.

Create HintDb frame discriminated.

#[export] Hint Resolve keeps_stream_write : frame.

#[export] Hint Resolve keeps_ret keeps_pass keeps_raise keeps_sys_exit keeps_lift
  keeps_key_of keeps_dict_get keeps_print keeps_print_opt keeps_bind
  keeps_try_finally keeps_try_except keeps_for_each keeps_if keeps_sys
  keeps_os_path_exists keeps_os_listdir keeps_open_read keeps_read_file : frame.
#[export] Hint Extern 1 (_ = _) => (intros; reflexivity) : frame.

(** Structural steps are taken by the shape of the program; the leaves
    are closed from the hint base. *)
Ltac frame_step :=
  lazymatch goal with
  | |- ∀ _, _ => intros
  | |- keeps _ (bind _ _) => apply keeps_bind
  | |- keeps _ (try_finally _ _) => apply keeps_try_finally
  | |- keeps _ (try_except _ _) => apply keeps_try_except
  | |- keeps _ (for_each _ _ _) => apply keeps_for_each
  | |- keeps _ (sys _ _ _ _ _) => apply keeps_sys
  | |- keeps _ (if ?b then _ else _) => destruct b
  | |- keeps _ (match ?x with _ => _ end) => destruct x
  | |- _ = _ => reflexivity
  | |- keeps _ _ => solve [ auto 2 with frame ]
  end.

Ltac frame := repeat frame_step.

Lemma keeps_files_tmp_dir_EFI_dir env target :
  keeps files (tmp_dir_EFI_dir env target).
Proof. unfold tmp_dir_EFI_dir, shutil_copytree. frame. Qed.

Lemma keeps_files_main_prefix env rev target :
  keeps files (main_prefix env rev target).
Proof.
  destruct rev; unfold main_prefix, tmp_dir_EFI_dir, shutil_copytree; frame.
Qed.

(** [get_boot_mac] reads the files and nothing else. *)
Lemma get_boot_mac_state rev st : (get_boot_mac rev st).2 = st.
Proof.
  unfold get_boot_mac, bind. pose proof (read_file_state rev proc_cmdline st) as H.
  destruct (read_file rev proc_cmdline st) as [[cmdline | c | e] st1];
    simpl in *; subst; try done.
  destruct (filter _ _ !! 0); [| done].
  destruct (PyStr.split_char "=" s) as [| ? [| ? [| ? ?]]]; done.
Qed.

Lemma get_boot_mac_files rev st1 st2 :
  files st1 = files st2 → (get_boot_mac rev st1).1 = (get_boot_mac rev st2).1.
Proof.
  intros Hf. unfold get_boot_mac, bind.
  pose proof (read_file_files rev proc_cmdline st1 st2 Hf) as H.
  destruct (read_file rev proc_cmdline st1) as [[c1 | c1 | e1] s1],
           (read_file rev proc_cmdline st2) as [[c2 | c2 | e2] s2];
    simpl in *; try discriminate; try congruence.
  injection H as ->.
  destruct (filter _ _ !! 0); [| done].
  destruct (PyStr.split_char "=" s) as [| ? [| ? [| ? ?]]]; done.
Qed.

Lemma get_boot_mac_transfer rev st st1 r :
  get_boot_mac rev st = (r, st) → files st1 = files st →
  get_boot_mac rev st1 = (r, st1).
Proof.
  intros H Hf. pose proof (get_boot_mac_files rev st1 st Hf) as H1.
  pose proof (get_boot_mac_state rev st1) as H2.
  destruct (get_boot_mac rev st1) as [r1 s1]. rewrite H in H1.
  simpl in *. congruence.
Qed.

(** [main], cut at the boot-interface check: with a target and an fstab
    in the environment and a boot MAC found, [main] is its prefix
    followed by the rest of the installation. *)
Lemma main_with_bootmac env rev st target fstab bootmac :
  st_target (command_environment env) = Some target →
  st_fstab (command_environment env) = Some fstab →
  get_boot_mac rev st = (Ok (Some bootmac), st) →
  main env rev st
  = (main_prefix env rev target;; main_rest env rev target fstab bootmac) st.
Proof.
  intros Ht Hf Hmac. destruct rev; unfold main, main_R33, main_R46, main_prefix.
  - rewrite Ht, Hf. rewrite (bind_ok _ _ _ _ _ Hmac). reflexivity.
  - rewrite Ht, Hf. rewrite !bind_assoc.
    apply (bind_ext_keeps files); [frame |]. intros _ st1 H1. cbv beta.
    rewrite !bind_assoc.
    apply (bind_ext_keeps files); [apply keeps_files_tmp_dir_EFI_dir |].
    intros _ st2 H2. cbv beta.
    apply (bind_ext_keeps files); [frame |]. intros _ st3 H3. cbv beta.
    assert (files st3 = files st) as Hst by congruence.
    rewrite (bind_ok _ _ _ _ _ (get_boot_mac_transfer _ _ _ _ Hmac Hst)).
    reflexivity.
Qed.

Lemma split_char_absent c s :
  contains_char c s = false → PyStr.split_char c s = [ s ].
Proof.
  induction s as [| a s IH]; simpl; [done |].
  destruct (Ascii.eqb a c); simpl; [done |].
  intros H. by rewrite IH.
Qed.

(** A BOOTIF value with a second ['='] makes the unpacking of
    [bootif.split('=')] fail: the function raises [ValueError] although
    the value has no ['-']. *)
Lemma get_boot_mac_second_equals_sign :
  read_file R33 proc_cmdline (st_pxe "ro BOOTIF=a=b quiet")
    = (Ok "ro BOOTIF=a=b quiet", st_pxe "ro BOOTIF=a=b quiet")
  ∧ List.find (λ tok, PyStr.startswith tok "BOOTIF")
              (PyStr.split_ws (unicode_text R33) "ro BOOTIF=a=b quiet")
    = Some ("BOOTIF=" +:+ "a=b")
  ∧ contains_char "-" "a=b" = false
  ∧ get_boot_mac R33 (st_pxe "ro BOOTIF=a=b quiet")
    = (Raise (ValueError "wrong number of values to unpack"),
       st_pxe "ro BOOTIF=a=b quiet")
  ∧ get_boot_mac R33 (st_pxe "ro BOOTIF=a=b quiet")
    ≠ (Ok (Some ""), st_pxe "ro BOOTIF=a=b quiet").
Proof.
  assert (get_boot_mac R33 (st_pxe "ro BOOTIF=a=b quiet")
          = (Raise (ValueError "wrong number of values to unpack"),
             st_pxe "ro BOOTIF=a=b quiet")) as H
    by (vm_compute; reflexivity).
  split; [vm_compute; reflexivity |].
  split; [vm_compute; reflexivity |].
  split; [reflexivity |].
  split; [exact H |].
  rewrite H. discriminate.
Qed.

(** C9 (amended).  When the first token starting with ["BOOTIF"] is
    ["BOOTIF=<value>"] and [<value>] has neither a ['-'] nor a further
    ['='], [get_boot_mac] returns the empty string, not [None]; [main]
    then passes its boot-interface check and carries on with the
    installation, the MAC being empty. *)
Theorem get_boot_mac_without_dash (rev : revision) (st : State)
    (cmdline value : string) :
  read_file rev proc_cmdline st = (Ok cmdline, st) →
  List.find (λ tok, PyStr.startswith tok "BOOTIF")
            (PyStr.split_ws (unicode_text rev) cmdline)
    = Some ("BOOTIF=" +:+ value) →
  contains_char "-" value = false →
  contains_char "=" value = false →
  get_boot_mac rev st = (Ok (Some ""), st)
  ∧ ∀ env target fstab,
      st_target (command_environment env) = Some target →
      st_fstab (command_environment env) = Some fstab →
      main env rev st
      = (main_prefix env rev target;; main_rest env rev target fstab "") st.
Proof.
  intros Hread Hfirst Hdash Heq.
  assert (get_boot_mac rev st = (Ok (Some ""), st)) as Hmac.
  { unfold get_boot_mac. rewrite (bind_ok _ _ _ _ _ Hread).
    rewrite filter_head_find, Hfirst. simpl.
    change ("" +:+ value) with value.
    rewrite (split_char_absent _ _ Heq). simpl.
    rewrite (split_char_absent _ _ Hdash). reflexivity. }
  split; [exact Hmac |].
  intros env target fstab Ht Hf. by apply main_with_bootmac.
Qed.

Lemma get_boot_mac_without_dash_witness :
  get_boot_mac R33 (st_pxe "ro BOOTIF=eth0 quiet")
  = (Ok (Some ""), st_pxe "ro BOOTIF=eth0 quiet").
Proof.
  apply (get_boot_mac_without_dash R33 (st_pxe "ro BOOTIF=eth0 quiet")
           "ro BOOTIF=eth0 quiet" "eth0"); vm_compute; reflexivity.
Defined.

(** ** The grub defaults *)

Lemma string_app_assoc (a b c : string) : (a +:+ b) +:+ c = a +:+ b +:+ c.
Proof.
  induction a as [| x a IH]; [done |].
  change (String x ((a +:+ b) +:+ c) = String x (a +:+ b +:+ c)). by rewrite IH.
Qed.

Lemma list_append_spec r x l st :
  heap st !! r = Some l →
  list_append r x st = (Ok tt, set_heap (<[ r := l ++ [ x ] ]> (heap st)) st).
Proof. intros H. unfold list_append. by rewrite H. Qed.

(** What [update_grub_default] does up to the moment it opens the file:
    the list object is extended (later revision) and then read. *)
Lemma update_grub_default_unfold env rev target extra params st :
  heap st !! extra = Some params →
  let st1 := set_heap (<[ extra := params ++ fixed_tokens rev ]> (heap st)) st in
  update_grub_default env rev target extra st
  = (open_append env (grub_default_path target);;
     stream_write env (grub_default_path target) GRUB_PREPEND;;
     stream_write env (grub_default_path target)
       (grub_cmdline_line (PyStr.join " " (params ++ fixed_tokens rev)))) st1.
Proof.
  intros H st1. pose proof (lookup_lt_Some _ _ _ H) as Hlt.
  assert (heap st1 !! extra = Some (params ++ fixed_tokens rev)) as H1
    by (by apply list_lookup_insert_eq).
  unfold update_grub_default. fold (grub_default_path target).
  destruct rev; simpl in st1.
  - assert (st1 = st) as Hst.
    { unfold st1. rewrite app_nil_r, list_insert_id by done. by destruct st. }
    rewrite Hst in *. unfold bind at 1. simpl.
    unfold bind at 1, list_read. rewrite H, app_nil_r. reflexivity.
  - unfold bind at 1. unfold bind at 1.
    rewrite (list_append_spec _ _ _ _ H).
    erewrite list_append_spec by (by apply list_lookup_insert_eq). simpl.
    rewrite list_insert_insert_eq, <- app_assoc. simpl.
    change (set_heap _ (set_heap _ st)) with st1.
    unfold bind at 1, list_read. by rewrite H1.
Qed.

(** C10.  The later [update_grub_default] changes the list object it is
    given: after the call the caller's list is the original one followed
    by ["fsck.mode=skip"] and ["rootfstype=ext4"], whether or not the
    file could be opened, and the other list objects are as before.
    [n] successive calls that use the default value leave the shared
    default list with [n] copies of the two tokens appended.  The earlier
    revision leaves the heap as it was. *)
Theorem update_grub_default_mutates_extra (env : Env) (target : string)
    (extra : nat) (l : list string) (st : State) :
  heap st !! extra = Some l →
  heap (update_grub_default env R46 target extra st).2
    = <[ extra := l ++ [ "fsck.mode=skip"; "rootfstype=ext4" ] ]> (heap st)
  ∧ heap (update_grub_default env R46 target extra st).2 !! extra
    = Some (l ++ [ "fsck.mode=skip"; "rootfstype=ext4" ])
  ∧ heap (update_grub_default env R33 target extra st).2 = heap st
  ∧ (extra = extra_default →
     ∀ n, heap (after_default_calls env target n st) !! extra_default
          = Some (l ++ concat (replicate n [ "fsck.mode=skip"; "rootfstype=ext4" ]))).
Proof.
  intros H.
  assert (∀ rev ps s, heap s !! extra = Some ps →
            heap (update_grub_default env rev target extra s).2
            = <[ extra := ps ++ fixed_tokens rev ]> (heap s)) as Hheap.
  { intros rev ps s Hs. rewrite (update_grub_default_unfold _ _ _ _ _ _ Hs).
    cbv zeta. set (s1 := set_heap _ s).
    change (<[extra:=ps ++ fixed_tokens rev]> (heap s)) with (heap s1).
    generalize s1. clear. change (keeps heap
      (open_append env (grub_default_path target);;
       stream_write env (grub_default_path target) GRUB_PREPEND;;
       stream_write env (grub_default_path target)
         (grub_cmdline_line (PyStr.join " " (ps ++ fixed_tokens rev))))).
    unfold open_append. frame. }
  split; [exact (Hheap R46 l st H) |].
  split.
  { rewrite (Hheap R46 l st H). apply list_lookup_insert_eq.
    by eapply lookup_lt_Some. }
  split.
  { rewrite (Hheap R33 l st H). simpl. rewrite app_nil_r. by apply list_insert_id. }
  intros -> n. induction n as [| n IH]; simpl.
  - by rewrite app_nil_r.
  - rewrite (Hheap R46 _ _ IH). rewrite list_lookup_insert_eq.
    + simpl. rewrite <- app_assoc. f_equal. f_equal.
      clear. induction n as [| n IH]; [done |].
      simpl in *. by rewrite IH.
    + by eapply lookup_lt_Some.
Qed.

Lemma update_grub_default_mutates_extra_witness :
  heap (update_grub_default (env_ok false) R46 "/t" 1 (st_heap [ "quiet" ])).2 !! 1
  = Some ([ "quiet" ] ++ [ "fsck.mode=skip"; "rootfstype=ext4" ]).
Proof.
  apply (update_grub_default_mutates_extra (env_ok false) "/t" 1 [ "quiet" ]
           (st_heap [ "quiet" ])).
  reflexivity.
Defined.

Lemma strip_kernel_params_filter params strips :
  strip_kernel_params params strips
  = filter (λ p, existsb (λ strip, PyStr.startswith p strip) strips = false) params.
Proof.
  unfold strip_kernel_params.
  assert (∀ acc,
    fold_left
      (λ new_params param,
         if existsb (λ strip, PyStr.startswith param strip) strips
         then new_params else new_params ++ [ param ]) params acc
    = acc ++ filter (λ p, existsb (λ strip, PyStr.startswith p strip) strips = false)
               params) as H.
  { induction params as [| p params IH]; intros acc; simpl.
    - by rewrite app_nil_r.
    - rewrite IH, filter_cons. destruct (decide _) as [Hd | Hd].
      + rewrite Hd. by rewrite <- app_assoc.
      + apply not_false_is_true in Hd. by rewrite Hd. }
  apply (H []).
Qed.

(** No token that [get_extra_kernel_parameters] returns starts with
    ["initrd="], ["BOOT_IMAGE="] or ["BOOTIF="]. *)
Lemma get_extra_kernel_parameters_stripped rev st ps st' :
  get_extra_kernel_parameters rev st = (Ok ps, st') →
  Forall (λ p, unwanted p = false) ps.
Proof.
  unfold get_extra_kernel_parameters, bind.
  destruct (read_file rev proc_cmdline st) as [[cmdline | c | e] st1]; [| done..].
  destruct (negb _); [intros [= <- _]; constructor |].
  destruct (list_index _ _) as [i |]; simpl; [| done].
  destruct (_ <=? _)%nat; [intros [= <- _]; constructor |].
  intros [= <- _]. rewrite strip_kernel_params_filter.
  apply Forall_forall. intros p Hp.
  by apply list_elem_of_filter in Hp as [Hp _].
Qed.

(** [update_grub_default] writes the list as it is given: a ["BOOTIF="]
    token in the list stays in the line (earlier revision), and the later
    revision adds two tokens of its own, so that in neither revision the
    value is the list with the three kinds of token removed. *)
Lemma update_grub_default_does_not_filter :
  content (grub_default_path "/t")
    (update_grub_default (env_ok false) R33 "/t" 1
       (st_heap [ "quiet"; "BOOTIF=01-aa" ])).2
  = GRUB_PREPEND +:+ grub_cmdline_line "quiet BOOTIF=01-aa"
  ∧ content (grub_default_path "/t")
      (update_grub_default (env_ok false) R33 "/t" 1
         (st_heap [ "quiet"; "BOOTIF=01-aa" ])).2
    ≠ GRUB_PREPEND +:+ grub_cmdline_line
        (PyStr.join " " (filter (λ p, unwanted p = false) [ "quiet"; "BOOTIF=01-aa" ]))
  ∧ content (grub_default_path "/t")
      (update_grub_default (env_ok false) R46 "/t" 1 (st_heap [ "quiet" ])).2
    = GRUB_PREPEND +:+ grub_cmdline_line "quiet fsck.mode=skip rootfstype=ext4"
  ∧ content (grub_default_path "/t")
      (update_grub_default (env_ok false) R46 "/t" 1 (st_heap [ "quiet" ])).2
    ≠ GRUB_PREPEND +:+ grub_cmdline_line
        (PyStr.join " " (filter (λ p, unwanted p = false) [ "quiet" ])).
Proof.
  split; [vm_compute; reflexivity |].
  split; [vm_compute; discriminate |].
  split; [vm_compute; reflexivity |].
  vm_compute; discriminate.
Qed.

(** Where [l.index("--")] points, and what lies behind it. *)
Lemma list_index_separator (tokens : list string) :
  match list_index "--" tokens with
  | Some i => i < length tokens ∧ drop (S i) tokens = after_separator tokens
  | None => ("--" ∉ tokens) ∧ after_separator tokens = []
  end.
Proof.
  induction tokens as [| token rest IH]; simpl.
  - split; [apply not_elem_of_nil | done].
  - case_bool_decide as Ht; simpl.
    + split; [lia | done].
    + destruct (list_index "--" rest) as [i |]; simpl.
      * destruct IH as [Hi Hd]. split; [lia | done].
      * destruct IH as [Hno Ha]. split; [| done].
        apply not_elem_of_cons. split; [congruence | done].
Qed.

(** What [get_extra_kernel_parameters] makes of the command line it
    reads. *)
Lemma get_extra_kernel_parameters_value rev st cmdline :
  read_file rev proc_cmdline st = (Ok cmdline, st) →
  get_extra_kernel_parameters rev st = (Ok (extra_kernel_tokens rev cmdline), st).
Proof.
  intros Hread. unfold get_extra_kernel_parameters, extra_kernel_tokens.
  rewrite (bind_ok _ _ _ _ _ Hread).
  set (tokens := PyStr.split_ws (unicode_text rev) cmdline).
  pose proof (list_index_separator tokens) as Hidx.
  destruct (list_index "--" tokens) as [i |] eqn:Ei.
  - destruct Hidx as [Hi Hd].
    rewrite bool_decide_eq_true_2; simpl.
    + unfold bind at 1. simpl.
      destruct (_ <=? _)%nat eqn:E; [apply Nat.leb_le in E; lia |].
      rewrite strip_kernel_params_filter.
      replace (i + 1) with (S i) by lia. by rewrite Hd.
    + clear -Ei. revert i Ei. induction tokens as [| t rest IH]; [done |].
      simpl. intros i. case_bool_decide as Ht.
      * intros _. subst t. apply elem_of_cons. by left.
      * destruct (list_index "--" rest) as [j |]; [| done].
        intros _. apply elem_of_cons. right. by apply (IH j).
  - destruct Hidx as [Hno Ha].
    rewrite bool_decide_eq_false_2 by done. simpl. by rewrite Ha.
Qed.

(** What [update_grub_default] leaves in a file that can be opened and
    written: the old content, the preamble and one line with the list it
    was given, followed by the tokens of the revision. *)
Lemma update_grub_default_writes env rev target extra params st :
  writable env (grub_default_path target) "a" →
  heap st !! extra = Some params →
  ∃ st',
    update_grub_default env rev target extra st = (Ok tt, st')
    ∧ files st'
      = <[ grub_default_path target :=
             content (grub_default_path target) st +:+ GRUB_PREPEND +:+
             grub_cmdline_line (PyStr.join " " (params ++ fixed_tokens rev)) ]>
          (files st).
Proof.
  intros [Hopen Hwrite] H.
  rewrite (update_grub_default_unfold _ _ _ _ _ _ H). cbv zeta.
  set (st1 := set_heap _ st).
  unfold bind, open_append, sys. rewrite Hopen. cbn [orb]. cbv beta iota.
  unfold stream_write at 1. rewrite Hwrite. cbv beta iota.
  unfold stream_write. rewrite Hwrite.
  eexists. split; [reflexivity |].
  unfold content. cbn [files set_files log].
  rewrite !lookup_insert_eq. cbn [default from_option id].
  rewrite !insert_insert_eq. by rewrite string_app_assoc.
Qed.

(** C3 (amended).  On a file that can be opened and written,
    [update_grub_default] appends to [/etc/default/grub] exactly
    [GRUB_PREPEND] and one [GRUB_CMDLINE_LINUX] line, and changes no
    other file.  The value of the line is the list it is given, joined
    with spaces and not filtered, followed by ["fsck.mode=skip"] and
    ["rootfstype=ext4"] in the later revision.  In [main] the list is
    what [get_extra_kernel_parameters] returns: once a block device is
    found and the fstab written, [main] appends the preamble and the line
    whose value is the tokens of the kernel command line after the first
    ["--"], without those starting with ["initrd="], ["BOOT_IMAGE="] or
    ["BOOTIF="] (and with the two tokens of the later revision), and goes
    on with [grub2-mkconfig]. *)
Theorem update_grub_default_appends (env : Env) (rev : revision)
    (target : string) :
  writable env (grub_default_path target) "a" →
  (∀ extra params st,
     heap st !! extra = Some params →
     (update_grub_default env rev target extra st).1 = Ok tt
     ∧ files (update_grub_default env rev target extra st).2
       = <[ grub_default_path target :=
              content (grub_default_path target) st +:+ GRUB_PREPEND +:+
              grub_cmdline_line (PyStr.join " " (params ++ fixed_tokens rev)) ]>
           (files st))
  ∧ (∀ fstab devices cmdline st st1,
       get_block_devices env target st = (Ok devices, st) →
       devices ≠ [] →
       write_fstab env rev target fstab st = (Ok tt, st1) →
       read_file rev proc_cmdline st1 = (Ok cmdline, st1) →
       ∃ st2,
         main_install env rev target fstab st
         = main_boot_loader env rev target devices st2
         ∧ files st2
           = <[ grub_default_path target :=
                  content (grub_default_path target) st1 +:+ GRUB_PREPEND +:+
                  grub_cmdline_line
                    (PyStr.join " " (extra_kernel_tokens rev cmdline
                                     ++ fixed_tokens rev)) ]>
               (files st1)).
Proof.
  intros Hw. split.
  - intros extra params st H.
    destruct (update_grub_default_writes env rev target extra params st Hw H)
      as (st' & -> & Hf).
    by split.
  - intros fstab devices cmdline st st1 Hdev Hne Hfstab Hread.
    unfold main_install. rewrite (bind_ok _ _ _ _ _ Hdev).
    rewrite bool_decide_eq_false_2 by done.
    rewrite (bind_ok _ _ _ _ _ Hfstab).
    rewrite (bind_ok _ _ _ _ _ (get_extra_kernel_parameters_value _ _ _ Hread)).
    unfold bind at 1, list_new. cbv beta iota.
    set (params := extra_kernel_tokens rev cmdline).
    set (s := set_heap (heap st1 ++ [ params ]) st1).
    destruct (update_grub_default_writes env rev target (length (heap st1))
                params s Hw) as (st2 & Hup & Hf).
    { unfold s. simpl. by rewrite lookup_app_r, Nat.sub_diag. }
    rewrite (bind_ok _ _ _ _ _ Hup). exists st2. split; [reflexivity | exact Hf].
Qed.

Lemma update_grub_default_appends_witness :
  ∃ st2,
    main_install (env_ok false) R46 "/t" "/tmp/fstab" (st_pxe cmdline_example)
    = main_boot_loader (env_ok false) R46 "/t" [ "/dev/sda" ] st2
    ∧ files st2 !! grub_default_path "/t"
      = Some (GRUB_PREPEND +:+
              grub_cmdline_line "console=tty0 fsck.mode=skip rootfstype=ext4").
Proof.
  destruct (update_grub_default_appends (env_ok false) R46 "/t") as [_ H].
  { split; reflexivity. }
  destruct (H "/tmp/fstab" [ "/dev/sda" ] cmdline_example (st_pxe cmdline_example)
              (write_fstab (env_ok false) R46 "/t" "/tmp/fstab"
                 (st_pxe cmdline_example)).2)
    as (st2 & Hm & Hf).
  - vm_compute. reflexivity.
  - discriminate.
  - vm_compute. reflexivity.
  - vm_compute. reflexivity.
  - exists st2. split; [exact Hm |]. rewrite Hf, lookup_insert_eq.
    vm_compute. reflexivity.
Defined.

(** ** The fstab *)

Lemma string_app_nil_r (s : string) : s +:+ "" = s.
Proof.
  induction s as [| a s IH]; [done |].
  change (String a (s +:+ "") = String a s). by rewrite IH.
Qed.

(** Whenever [read_file] returns the supplied fstab and the target file
    can be opened and written, [write_fstab] leaves in [/etc/fstab] the preamble,
    then what was read, then the UEFI line on a UEFI machine, and touches
    no other file. *)
Lemma write_fstab_content env rev target curtin_fstab data st :
  read_file rev curtin_fstab st = (Ok data, st) →
  writable env (fstab_path_of target) "w" →
  (write_fstab env rev target curtin_fstab st).1 = Ok tt
  ∧ files (write_fstab env rev target curtin_fstab st).2
    = <[ fstab_path_of target :=
           FSTAB_PREPEND +:+ data +:+
           (if is_uefi_bootable env then FSTAB_UEFI else "") ]> (files st).
Proof.
  intros Hread [Hopen Hwrite]. unfold write_fstab. fold (fstab_path_of target).
  rewrite (bind_ok _ _ _ _ _ Hread).
  unfold bind, open_write, sys. rewrite Hopen. cbn [orb]. cbv beta iota.
  unfold stream_write at 1. rewrite Hwrite. cbv beta iota.
  unfold stream_write at 1. rewrite Hwrite. cbv beta iota.
  destruct (is_uefi_bootable env); unfold stream_write, pass, ret;
    rewrite ?Hwrite; (split; [done |]);
    unfold content; cbn [files set_files log snd];
    rewrite !lookup_insert_eq; cbn [default from_option id];
    rewrite !insert_insert_eq.
  - change ("" +:+ FSTAB_PREPEND) with FSTAB_PREPEND.
    by rewrite !string_app_assoc.
  - change ("" +:+ FSTAB_PREPEND) with FSTAB_PREPEND.
    by rewrite string_app_nil_r.
Qed.

(** The later revision does so for every fstab file there is. *)
Lemma write_fstab_R46 env target curtin_fstab data st :
  files st !! curtin_fstab = Some data →
  writable env (fstab_path_of target) "w" →
  files (write_fstab env R46 target curtin_fstab st).2 !! fstab_path_of target
  = Some (FSTAB_PREPEND +:+ data +:+
          (if is_uefi_bootable env then FSTAB_UEFI else "")).
Proof.
  intros Hf Hopen.
  assert (read_file R46 curtin_fstab st = (Ok data, st)) as Hread
    by (apply read_file_ok; split; [done | discriminate]).
  destruct (write_fstab_content env R46 target _ _ _ Hread Hopen) as [_ ->].
  apply lookup_insert_eq.
Qed.

(** The earlier revision does so for the fstab files that are ASCII. *)
Lemma write_fstab_R33_ascii env target curtin_fstab data st :
  files st !! curtin_fstab = Some data →
  PyStr.is_ascii data = true →
  writable env (fstab_path_of target) "w" →
  files (write_fstab env R33 target curtin_fstab st).2 !! fstab_path_of target
  = Some (FSTAB_PREPEND +:+ data +:+
          (if is_uefi_bootable env then FSTAB_UEFI else "")).
Proof.
  intros Hf Ha Hopen.
  assert (read_file R33 curtin_fstab st = (Ok data, st)) as Hread
    by (apply read_file_ok; split; done).
  destruct (write_fstab_content env R33 target _ _ _ Hread Hopen) as [_ ->].
  apply lookup_insert_eq.
Qed.

(** On any other fstab file the earlier revision raises in [read_file],
    before the target file is opened. *)
Lemma write_fstab_R33_raises env target curtin_fstab data st :
  files st !! curtin_fstab = Some data →
  PyStr.is_ascii data = false →
  write_fstab env R33 target curtin_fstab st = (Raise UnicodeDecodeError, st).
Proof.
  intros Hf Ha.
  unfold write_fstab, bind, read_file, bind, open_read, py2_str_encode.
  by rewrite Hf, Ha.
Qed.

(** C2.  The earlier revision at an fstab with one accented letter: the
    call raises [UnicodeDecodeError], no [/etc/fstab] is produced and the
    state is untouched, where the later revision writes the preamble
    followed by the supplied content. *)
Theorem write_fstab_R33_non_ascii :
  files st_accent !! "/tmp/fstab" = Some fstab_accent
  ∧ write_fstab (env_ok false) R33 "/t" "/tmp/fstab" st_accent
    = (Raise UnicodeDecodeError, st_accent)
  ∧ files (write_fstab (env_ok false) R33 "/t" "/tmp/fstab" st_accent).2
      !! fstab_path_of "/t" = None
  ∧ files (write_fstab (env_ok false) R46 "/t" "/tmp/fstab" st_accent).2
      !! fstab_path_of "/t" = Some (FSTAB_PREPEND +:+ fstab_accent).
Proof.
  assert (write_fstab (env_ok false) R33 "/t" "/tmp/fstab" st_accent
          = (Raise UnicodeDecodeError, st_accent)) as H.
  { apply (write_fstab_R33_raises _ _ _ fstab_accent); reflexivity. }
  split; [reflexivity |]. split; [exact H |]. split.
  - rewrite H. reflexivity.
  - rewrite (write_fstab_R46 _ _ _ fstab_accent) by (try split; reflexivity).
    simpl. by rewrite string_app_nil_r.
Qed.

(** ** The EFI partition *)

Lemma tmp_efi_ne_efi_path target : tmp_efi_of target ≠ efi_path_of target.
Proof.
  unfold tmp_efi_of, efi_path_of, os_path_join. simpl.
  unfold path_join2 at 1 3.
  change (PyStr.startswith "efi_part" "/") with false.
  change (PyStr.startswith "efi" "/") with false. cbv iota.
  destruct (_ || _); intros H.
  - by apply (inj (String.app _)) in H.
  - by apply (inj (String.app _)) in H.
Qed.

Lemma keeps_md_stdout o st : mounts_dirs (set_stdout o st) = mounts_dirs st.
Proof. done. Qed.

Lemma keeps_md_log c b st : mounts_dirs (log c b st) = mounts_dirs st.
Proof. done. Qed.

#[export] Hint Resolve keeps_md_stdout keeps_md_log : frame.












(** [check_efi_dir] catches whatever its body raises. *)
Lemma check_efi_dir_total env target st :
  ∃ found st', check_efi_dir env target st = (Ok found, st').
Proof.
  unfold check_efi_dir, try_except, bind, os_listdir, os_path_exists, print.
  destruct (dir_listing env st _) as [e | l]; simpl; [by eauto |].
  destruct (path_exists env _ _); simpl; [| by eauto].
  destruct (dir_listing env _ _) as [e | l']; simpl; by eauto.
Qed.



(** In the later revision the copy from [yxp] onto the efi directory
    stands outside every [try]: when it is refused after a successful
    mount, the function ends with the efi directory still mounted. *)
Lemma install_efi_R46_leaves_efi_mounted :
  (install_efi env_copy_refused R46 "/t" "/dev/sda1" st_empty).1
  = Raise (OSError "copytree" "/t/yxp")
  ∧ is_mounted (efi_path_of "/t")
      (install_efi env_copy_refused R46 "/t" "/dev/sda1" st_empty).2 = true
  ∧ is_mounted (efi_path_of "/t") st_empty = false.
Proof. repeat split; vm_compute; reflexivity. Qed.



Lemma bind_raise_left {A B C} (m : M A) (f : A → M B) (g : B → M C) st e st' :
  bind m f st = (Raise e, st') →
  bind m (λ a, bind (f a) g) st = (Raise e, st').
Proof. intros H. rewrite <- bind_assoc. unfold bind at 1. by rewrite H. Qed.

(** With the flag down the last stage is the directory check, the copy
    from [yxp] when the check fails, and [grub2-install]; no unmount
    follows.  It ends in one of three ways. *)
Lemma grub_efi_R46_unflagged env target st r st' :
  grub_efi_R46 env target false st = (r, st') →
  (r = Ok tt ∧ last (trace st') = Some (grub_efi_call target, true))
  ∨ (r = Raise (ProcessExecutionError
                  [ "grub2-install"; "--target=x86_64-efi";
                    "--efi-directory"; "/boot/efi"; "--recheck" ])
     ∧ last (trace st') = Some (grub_efi_call target, false))
  ∨ (r = Raise (OSError "copytree" (os_path_join target [ "yxp" ]))
     ∧ last (trace st') = Some (fallback_copy_call target, false)
     ∧ (check_efi_dir env target st).1 = Ok false).
Proof.
  unfold grub_efi_R46. unfold bind at 1.
  destruct (check_efi_dir_total env target st) as (found & s1 & Ec).
  rewrite Ec.
  assert (∀ s, try_finally (grub2_install_efi env target) pass s = (r, st') →
    (r = Ok tt ∧ last (trace st') = Some (grub_efi_call target, true))
    ∨ (r = Raise (ProcessExecutionError
                    [ "grub2-install"; "--target=x86_64-efi";
                      "--efi-directory"; "/boot/efi"; "--recheck" ])
       ∧ last (trace st') = Some (grub_efi_call target, false))) as Hgrub.
  { intros s. unfold try_finally, grub2_install_efi, run_in_chroot, sys. simpl.
    fold (grub_efi_call target).
    destruct (sys_fails env s _); simpl; intros [= <- <-];
      [right | left]; (split; [done |]); simpl; apply last_snoc. }
  destruct found; simpl.
  - unfold bind at 1. simpl. intros H. destruct (Hgrub _ H); auto.
  - unfold bind at 1, bind at 1, shutil_copytree, sys. simpl.
    fold (fallback_copy_call target).
    destruct (sys_fails env s1 _); simpl.
    + intros [= <- <-]. right. right. split; [done |]. split; [| done].
      simpl. apply last_snoc.
    + intros H. destruct (Hgrub _ H); auto.
Qed.

(** On a machine where the UEFI partition is already mounted on the efi
    directory, a second mount there is refused and there is no [yxp] to
    copy from, the later [install_efi] swallows the two mount failures
    and then ends by the exception of the copy: [grub2-install] is never
    run. *)
Lemma install_efi_R46_no_grub_after_mount_failure :
  (install_efi env_efi_busy R46 "/t" "/dev/sda1" st_efi_mounted).1
  = Raise (OSError "copytree" "/t/yxp")
  ∧ stdout (install_efi env_efi_busy R46 "/t" "/dev/sda1" st_efi_mounted).2
    = [ PExn (ProcessExecutionError [ "mount"; "/dev/sda1"; "/t/boot/efi" ]);
        PStr "cant not mount /dev/sda1";
        PList []; PBool false; PStr "if exists EFI dir" ]
  ∧ trace (install_efi env_efi_busy R46 "/t" "/dev/sda1" st_efi_mounted).2
    = [ (SysMkdir "/t/boot/efi_part", true);
        (SysSubp [ "mount"; "/dev/sda1"; "/t/boot/efi_part" ], true);
        (SysRmtree "/t/boot/efi_part/EFI", true);
        (SysCopytree "/t/boot/efi/EFI" "/t/boot/efi_part/EFI", true);
        (SysSubp [ "umount"; "/t/boot/efi_part" ], true);
        (SysRmdir "/t/boot/efi_part", true);
        (SysSubp [ "mount"; "/dev/sda1"; "/t/boot/efi" ], false);
        (SysSubp [ "umount"; "/t/boot/efi" ], true);
        (SysSubp [ "mount"; "/dev/sda1"; "/t/boot/efi" ], false);
        (SysCopytree "/t/yxp" "/t/boot/efi/EFI", false) ]
  ∧ ∀ ok, (grub_efi_call "/t", ok)
          ∉ trace (install_efi env_efi_busy R46 "/t" "/dev/sda1" st_efi_mounted).2.
Proof.
  assert (trace (install_efi env_efi_busy R46 "/t" "/dev/sda1" st_efi_mounted).2
    = [ (SysMkdir "/t/boot/efi_part", true);
        (SysSubp [ "mount"; "/dev/sda1"; "/t/boot/efi_part" ], true);
        (SysRmtree "/t/boot/efi_part/EFI", true);
        (SysCopytree "/t/boot/efi/EFI" "/t/boot/efi_part/EFI", true);
        (SysSubp [ "umount"; "/t/boot/efi_part" ], true);
        (SysRmdir "/t/boot/efi_part", true);
        (SysSubp [ "mount"; "/dev/sda1"; "/t/boot/efi" ], false);
        (SysSubp [ "umount"; "/t/boot/efi" ], true);
        (SysSubp [ "mount"; "/dev/sda1"; "/t/boot/efi" ], false);
        (SysCopytree "/t/yxp" "/t/boot/efi/EFI", false) ]) as Ht
    by (vm_compute; reflexivity).
  split; [vm_compute; reflexivity |]. split; [vm_compute; reflexivity |].
  split; [exact Ht |]. intros ok. rewrite Ht. intros Hin.
  repeat (apply elem_of_cons in Hin as [[=] | Hin]).
  by apply elem_of_nil in Hin.
Qed.

(** C8 (amended).  In the later revision, when the mount of the UEFI
    partition on the efi directory fails and the retried unmount and
    mount fail too, [install_efi] prints the exception and the message,
    goes on with the flag down and neither raises nor exits because of
    the mount.  What follows is the directory check, the copy from [yxp]
    when the check fails, and [grub2-install]: [grub2-install] is run,
    and its outcome is the outcome of the function, unless that copy is
    refused; no unmount is attempted afterwards. *)
Theorem install_efi_R46_mount_failure (env : Env) (target uefi_path : string)
    (st sa sb : State) (e1 e2 : exn) :
  util_subp env [ "mount"; uefi_path; efi_path_of target ] st = (Raise e1, sa) →
  (util_subp env [ "umount"; efi_path_of target ];;
   util_subp env [ "mount"; uefi_path; efi_path_of target ]) sa = (Raise e2, sb) →
  mount_efi_R46 env target uefi_path st = (Ok false, swallowed uefi_path e2 sb)
  ∧ (∀ st0, copy_efi_data env R46 target uefi_path st0 = (Ok tt, st) →
            install_efi env R46 target uefi_path st0
            = grub_efi_R46 env target false (swallowed uefi_path e2 sb))
  ∧ (∀ r st', grub_efi_R46 env target false (swallowed uefi_path e2 sb) = (r, st') →
       (r = Ok tt ∧ last (trace st') = Some (grub_efi_call target, true))
       ∨ (r = Raise (ProcessExecutionError
                       [ "grub2-install"; "--target=x86_64-efi";
                         "--efi-directory"; "/boot/efi"; "--recheck" ])
          ∧ last (trace st') = Some (grub_efi_call target, false))
       ∨ (r = Raise (OSError "copytree" (os_path_join target [ "yxp" ]))
          ∧ last (trace st') = Some (fallback_copy_call target, false)
          ∧ (check_efi_dir env target (swallowed uefi_path e2 sb)).1 = Ok false)).
Proof.
  intros H1 H2.
  assert (mount_efi_R46 env target uefi_path st
          = (Ok false, swallowed uefi_path e2 sb)) as Hm.
  { unfold mount_efi_R46, try_except at 1. unfold bind at 1. rewrite H1.
    unfold try_except. rewrite (bind_raise_left _ _ _ _ _ _ H2).
    unfold bind, print, ret, swallowed. simpl. by rewrite <- app_assoc. }
  split; [exact Hm |]. split.
  - intros st0 Hcopy. unfold install_efi, install_efi_R46.
    rewrite (bind_ok _ _ _ _ _ Hcopy). by rewrite (bind_ok _ _ _ _ _ Hm).
  - intros r st'. apply grub_efi_R46_unflagged.
Qed.

Lemma install_efi_R46_mount_failure_witness :
  mount_efi_R46 env_efi_busy "/t" "/dev/sda1" st_efi_mounted
  = (Ok false,
     swallowed "/dev/sda1"
       (ProcessExecutionError [ "mount"; "/dev/sda1"; "/t/boot/efi" ])
       (log (SysSubp [ "mount"; "/dev/sda1"; "/t/boot/efi" ]) false
          (set_mounts []
             (log (SysSubp [ "umount"; "/t/boot/efi" ]) true
                (log (SysSubp [ "mount"; "/dev/sda1"; "/t/boot/efi" ]) false
                   st_efi_mounted))))).
Proof.
  apply (install_efi_R46_mount_failure env_efi_busy "/t" "/dev/sda1"
           st_efi_mounted
           (log (SysSubp [ "mount"; "/dev/sda1"; "/t/boot/efi" ]) false st_efi_mounted)
           _
           (ProcessExecutionError [ "mount"; "/dev/sda1"; "/t/boot/efi" ])
           (ProcessExecutionError [ "mount"; "/dev/sda1"; "/t/boot/efi" ]));
    vm_compute; reflexivity.
Defined.

(** ** Operations that never call [sys.exit] *)

Section NoExit.

Lemma no_exit_ret {A} (a : A) : no_exit (ret a).
Proof. done. Qed.

Lemma no_exit_pass : no_exit pass.
Proof. done. Qed.

Lemma no_exit_raise {A} (e : exn) : no_exit (@raise A e).
Proof. done. Qed.

Lemma no_exit_print v : no_exit (print v).
Proof. done. Qed.

Lemma no_exit_print_opt o : no_exit (print_opt o).
Proof. done. Qed.

Lemma no_exit_lift {A} (r : exn + A) : no_exit (lift r).
Proof. by destruct r. Qed.

Lemma no_exit_key_of {A} k (o : option A) : no_exit (key_of k o).
Proof. by destruct o. Qed.

Lemma no_exit_str_replace v old new : no_exit (str_replace v old new).
Proof. by destruct v. Qed.

Lemma no_exit_dict_get {V} (d : gmap string V) k : no_exit (dict_get d k).
Proof. unfold dict_get. by destruct (d !! k). Qed.

Lemma no_exit_bind {A B} (m : M A) (f : A → M B) :
  no_exit m → (∀ a, no_exit (f a)) → no_exit (bind m f).
Proof.
  intros Hm Hf st c. unfold bind. specialize (Hm st).
  destruct (m st) as [[a | c' | e] st1]; simpl in *.
  - apply Hf.
  - by destruct (Hm c').
  - done.
Qed.

Lemma no_exit_try_finally {A} (body : M A) (cleanup : M unit) :
  no_exit body → no_exit cleanup → no_exit (try_finally body cleanup).
Proof.
  intros Hb Hc st c. unfold try_finally. specialize (Hb st).
  destruct (body st) as [r st1]. specialize (Hc st1).
  destruct (cleanup st1) as [[[] | c' | e] st2]; simpl in *.
  - apply Hb.
  - by destruct (Hc c').
  - done.
Qed.

Lemma no_exit_try_except {A} (body : M A) (handler : exn → M A) :
  no_exit body → (∀ e, no_exit (handler e)) → no_exit (try_except body handler).
Proof.
  intros Hb Hh st c. unfold try_except. specialize (Hb st).
  destruct (body st) as [[a | c' | e] st1]; simpl in *.
  - done.
  - by destruct (Hb c').
  - apply Hh.
Qed.

Lemma no_exit_for_each {A S} (l : list A) (body : S → A → M S) acc :
  (∀ s x, no_exit (body s x)) → no_exit (for_each l body acc).
Proof.
  intros Hb. revert acc. induction l as [| x l IH]; intros acc; simpl.
  - apply no_exit_ret.
  - apply no_exit_bind; auto.
Qed.

Lemma no_exit_sys env c forced e effect : no_exit (sys env c forced e effect).
Proof. intros st c'. unfold sys. by destruct (_ || _). Qed.

Lemma no_exit_os_path_exists env p : no_exit (os_path_exists env p).
Proof. done. Qed.

Lemma no_exit_os_listdir env p : no_exit (os_listdir env p).
Proof. intros st. unfold os_listdir. apply no_exit_lift. Qed.

Lemma no_exit_open_read p : no_exit (open_read p).
Proof. intros st c. unfold open_read. by destruct (files st !! p). Qed.

Lemma no_exit_py2_str_encode d : no_exit (py2_str_encode d).
Proof. unfold py2_str_encode. by destruct (PyStr.is_ascii d). Qed.

Lemma no_exit_stream_write env p d : no_exit (stream_write env p d).
Proof. intros st c. unfold stream_write. by destruct (write_error env st p d). Qed.

Lemma no_exit_list_new l : no_exit (list_new l).
Proof. done. Qed.

Lemma no_exit_list_read r : no_exit (list_read r).
Proof. intros st c. unfold list_read. by destruct (heap st !! r). Qed.

Lemma no_exit_list_append r x : no_exit (list_append r x).
Proof. intros st c. unfold list_append. by destruct (heap st !! r). Qed.

End NoExit.

Create HintDb noexit discriminated.

#[export] Hint Resolve no_exit_ret no_exit_pass no_exit_raise no_exit_print
  no_exit_print_opt no_exit_lift no_exit_key_of no_exit_str_replace
  no_exit_dict_get no_exit_sys
  no_exit_os_path_exists no_exit_os_listdir no_exit_open_read
  no_exit_py2_str_encode no_exit_stream_write no_exit_list_new
  no_exit_list_read no_exit_list_append : noexit.

Ltac noexit_step :=
  lazymatch goal with
  | |- ∀ _, _ => intros
  | |- no_exit (bind _ _) => apply no_exit_bind
  | |- no_exit (try_finally _ _) => apply no_exit_try_finally
  | |- no_exit (try_except _ _) => apply no_exit_try_except
  | |- no_exit (for_each _ _ _) => apply no_exit_for_each
  | |- no_exit (if ?b then _ else _) => destruct b
  | |- no_exit (match ?x with _ => _ end) => destruct x
  | |- no_exit (let _ := _ in _) => cbv zeta
  | |- no_exit _ => solve [ auto 2 with noexit ]
  end.

Ltac noexit := repeat noexit_step.

Lemma no_exit_read_file rev p : no_exit (read_file rev p).
Proof. unfold read_file. noexit. Qed.

Lemma no_exit_get_boot_mac rev : no_exit (get_boot_mac rev).
Proof.
  unfold get_boot_mac. apply no_exit_bind; [apply no_exit_read_file |].
  intros cmdline. cbv zeta. destruct (filter _ _ !! 0); [| noexit].
  destruct (PyStr.split_char "=" s) as [| ? [| ? [| ? ?]]]; noexit.
Qed.

#[export] Hint Resolve no_exit_read_file no_exit_get_boot_mac : noexit.

Lemma no_exit_write_fstab env rev target fstab :
  no_exit (write_fstab env rev target fstab).
Proof. unfold write_fstab, open_write. noexit. Qed.

Lemma no_exit_get_extra_kernel_parameters rev :
  no_exit (get_extra_kernel_parameters rev).
Proof.
  unfold get_extra_kernel_parameters. apply no_exit_bind; [noexit |].
  intros cmdline. cbv zeta. destruct (negb _); [noexit |].
  apply no_exit_bind; [destruct (list_index _ _); simpl; noexit |].
  intros i. destruct (_ <=? _)%nat; noexit.
Qed.

Lemma no_exit_update_grub_default env rev target extra :
  no_exit (update_grub_default env rev target extra).
Proof. unfold update_grub_default, open_append. noexit. Qed.

Lemma no_exit_grub2_mkconfig env target : no_exit (grub2_mkconfig env target).
Proof. unfold grub2_mkconfig, run_in_chroot. noexit. Qed.

Lemma no_exit_grub2_install env target root : no_exit (grub2_install env target root).
Proof. unfold grub2_install, run_in_chroot. noexit. Qed.

Lemma no_exit_install_efi env rev target uefi_path :
  no_exit (install_efi env rev target uefi_path).
Proof.
  destruct rev;
    unfold install_efi, install_efi_R33, install_efi_R46, copy_efi_data,
      copy_efi_body, mount_efi_R46, grub_efi_R46, check_efi_dir,
      grub2_install_efi, run_in_chroot, util_subp, os_mkdir, os_rmdir,
      shutil_rmtree, shutil_copytree;
    noexit.
Qed.

Lemma no_exit_get_block_devices env target : no_exit (get_block_devices env target).
Proof. unfold get_block_devices. noexit. Qed.

Lemma no_exit_get_uefi_partition env : no_exit (get_uefi_partition env).
Proof. unfold get_uefi_partition. noexit. Qed.

Lemma no_exit_set_autorelabel env target : no_exit (set_autorelabel env target).
Proof. unfold set_autorelabel, open_append. noexit. Qed.

Lemma no_exit_get_interface_names env rev : no_exit (get_interface_names env rev).
Proof. unfold get_interface_names. noexit. Qed.

Lemma no_exit_get_ipv4_config rev iface data : no_exit (get_ipv4_config rev iface data).
Proof. unfold get_ipv4_config. noexit. Qed.

Lemma no_exit_write_interface_config env rev target iface data :
  no_exit (write_interface_config env rev target iface data).
Proof.
  unfold write_interface_config, open_write.
  pose proof (no_exit_get_ipv4_config rev iface data). noexit.
Qed.

Lemma no_exit_get_address_gatway_message nc iname :
  no_exit (get_address_gatway_message nc iname).
Proof.
  unfold get_address_gatway_message. apply no_exit_bind; [noexit |].
  intros [[[af gf] a] g]. noexit.
Qed.

Lemma no_exit_write_network_config_R33 env target mac :
  no_exit (write_network_config_R33 env target mac).
Proof.
  unfold write_network_config_R33.
  pose proof (no_exit_get_interface_names env R33).
  pose proof (no_exit_write_interface_config env R33 target).
  noexit.
Qed.

Lemma no_exit_write_network_config_R46 env target mac nc :
  no_exit (write_network_config_R46 env target mac nc).
Proof.
  unfold write_network_config_R46.
  pose proof (no_exit_get_interface_names env R46).
  pose proof (no_exit_write_interface_config env R46 target).
  pose proof no_exit_get_address_gatway_message.
  noexit.
Qed.

Lemma no_exit_load_config env path : no_exit (load_config env path).
Proof. unfold load_config. noexit. Qed.

Lemma no_exit_get_nertwork_config cfg : no_exit (get_nertwork_config cfg).
Proof. unfold get_nertwork_config. noexit. Qed.

Lemma no_exit_tmp_dir_EFI_dir env target : no_exit (tmp_dir_EFI_dir env target).
Proof. unfold tmp_dir_EFI_dir, shutil_copytree. noexit. Qed.

Lemma no_exit_main_prefix env rev target : no_exit (main_prefix env rev target).
Proof.
  unfold main_prefix. pose proof (no_exit_tmp_dir_EFI_dir env). noexit.
Qed.

Lemma no_exit_elim {A} (m : M A) st c st' : no_exit m → m st = (Exit c, st') → False.
Proof. intros Hne H. apply (Hne st c). by rewrite H. Qed.

(** ** Stateless operations *)

Lemma stateless_ret {A} (a : A) : stateless (ret a).
Proof. by exists (Ok a). Qed.

Lemma stateless_lift {A} (r : exn + A) : stateless (lift r).
Proof. destruct r as [e | a]; [by exists (Raise e) | by exists (Ok a)]. Qed.

Lemma stateless_bind {A B} (m : M A) (f : A → M B) :
  stateless m → (∀ a, stateless (f a)) → stateless (bind m f).
Proof.
  intros [r Hm] Hf. destruct r as [a | c | e].
  - destruct (Hf a) as [r' Hfa]. exists r'. intros st. unfold bind.
    by rewrite Hm, Hfa.
  - exists (Exit c). intros st. unfold bind. by rewrite Hm.
  - exists (Raise e). intros st. unfold bind. by rewrite Hm.
Qed.

Lemma stateless_for_each {A S} (l : list A) (body : S → A → M S) acc :
  (∀ s x, stateless (body s x)) → stateless (for_each l body acc).
Proof.
  intros Hb. revert acc. induction l as [| x l IH]; intros acc; simpl.
  - apply stateless_ret.
  - apply stateless_bind; auto.
Qed.

Lemma stateless_get_block_devices env target :
  stateless (get_block_devices env target).
Proof.
  unfold get_block_devices.
  apply stateless_bind; [apply stateless_lift |]. intros devs.
  apply stateless_bind; [| intros; apply stateless_ret].
  apply stateless_for_each. intros s x.
  apply stateless_bind; [apply stateless_lift | intros; apply stateless_ret].
Qed.

Lemma stateless_get_uefi_partition env : stateless (get_uefi_partition env).
Proof.
  unfold get_uefi_partition.
  apply stateless_bind; [apply stateless_lift | intros; apply stateless_ret].
Qed.

Lemma stateless_eq {A} (m : M A) st1 st2 r st' :
  stateless m → m st1 = (r, st') → st' = st1 ∧ (m st2).1 = r.
Proof.
  intros [r0 H] H1. rewrite H in H1. injection H1 as <- <-.
  by rewrite H.
Qed.

(** ** The exit status of [main] *)

(** How the shared part of [main] can end: normally only when a block
    device was found and, on a UEFI machine, the UEFI partition too; by
    [sys.exit] only with status 1, at one of these two checks. *)
Lemma main_install_outcome env rev target fstab st r st' :
  main_install env rev target fstab st = (r, st') →
  match r with
  | Ok _ =>
      (get_block_devices env target st).1 ≠ Ok []
      ∧ (is_uefi_bootable env = true → (get_uefi_partition env st).1 ≠ Ok None)
  | Exit c =>
      c = 1%Z
      ∧ ((get_block_devices env target st).1 = Ok []
         ∨ (is_uefi_bootable env = true ∧ (get_uefi_partition env st).1 = Ok None))
  | Raise _ => True
  end.
Proof.
  unfold main_install. intros H.
  apply bind_inv in H as [(devices & st1 & Hdev & H) | [(c & Hx & ->) | (e & Hx & ->)]];
    [| by destruct (no_exit_elim _ _ _ _ (no_exit_get_block_devices _ _) Hx) | done].
  destruct (stateless_eq _ _ st _ _ (stateless_get_block_devices env target) Hdev)
    as [-> Hd].
  case_bool_decide as Hnil.
  { subst devices. revert H. unfold bind, print, sys_exit. simpl.
    intros [= <- <-]. split; [done |]. by left. }
  assert ((get_block_devices env target st).1 ≠ Ok []) as Hdev'
    by (rewrite Hd; congruence).
  apply bind_inv in H as [(? & s2 & _ & H) | [(c & Hx & ->) | (e & Hx & ->)]];
    [| by destruct (no_exit_elim _ _ _ _ (no_exit_write_fstab _ _ _ _) Hx) | done].
  apply bind_inv in H as [(params & s3 & _ & H) | [(c & Hx & ->) | (e & Hx & ->)]];
    [| by destruct (no_exit_elim _ _ _ _ (no_exit_get_extra_kernel_parameters _) Hx)
     | done].
  apply bind_inv in H as [(extra & s4 & _ & H) | [(c & Hx & ->) | (e & Hx & ->)]];
    [| by destruct (no_exit_elim _ _ _ _ (no_exit_list_new _) Hx) | done].
  apply bind_inv in H as [(? & s5 & _ & H) | [(c & Hx & ->) | (e & Hx & ->)]];
    [| by destruct (no_exit_elim _ _ _ _ (no_exit_update_grub_default _ _ _ _) Hx)
     | done].
  apply bind_inv in H as [(? & s6 & _ & H) | [(c & Hx & ->) | (e & Hx & ->)]];
    [| by destruct (no_exit_elim _ _ _ _ (no_exit_grub2_mkconfig _ _) Hx) | done].
  destruct (is_uefi_bootable env) eqn:Huefi.
  - apply bind_inv in H as [(part & s7 & Hp & H) | [(c & Hx & ->) | (e & Hx & ->)]];
      [| by destruct (no_exit_elim _ _ _ _ (no_exit_get_uefi_partition _) Hx) | done].
    destruct (stateless_eq _ _ st _ _ (stateless_get_uefi_partition env) Hp)
      as [-> Hp'].
    destruct part as [part |].
    + assert (no_exit (match rev with
                       | R33 => pass
                       | R46 => print (PStr "分区信息");;
                                print (PBlock part);;
                                print (PStr "testing efi dir")
                       end;; install_efi env rev target (device_path part))) as Hne.
      { pose proof (no_exit_install_efi env rev target). noexit. }
      destruct r as [[] | c | e]; [| by destruct (no_exit_elim _ _ _ _ Hne H) | done].
      split; [done |]. intros _. rewrite Hp'. congruence.
    + revert H. unfold bind, print, sys_exit. simpl. intros [= <- <-].
      split; [done |]. right. by rewrite Hp'.
  - assert (no_exit (for_each devices (λ _ dev, grub2_install env target dev) tt))
      as Hne by (pose proof (no_exit_grub2_install env target); noexit).
    destruct r as [[] | c | e]; [| by destruct (no_exit_elim _ _ _ _ Hne H) | done].
    split; [done |]. intros [=].
Qed.

Lemma stateless_fst {A} (m : M A) st1 st2 :
  stateless m → (m st1).1 = (m st2).1.
Proof. intros [r H]. by rewrite !H. Qed.

Lemma bind_ext {A B} (m : M A) (f g : A → M B) st :
  (∀ a st1, f a st1 = g a st1) → bind m f st = bind m g st.
Proof. intros H. unfold bind. destruct (m st) as [[a | c | e] st1]; auto. Qed.

Lemma main_decompose env rev st target fstab :
  st_target (command_environment env) = Some target →
  st_fstab (command_environment env) = Some fstab →
  main env rev st
  = (main_prefix env rev target;;
     bootmac ← get_boot_mac rev;
     match bootmac with
     | None => print (PStr "Unable to determine boot interface.");; sys_exit 1
     | Some bootmac => main_rest env rev target fstab bootmac
     end) st.
Proof.
  intros Ht Hf. destruct rev; unfold main, main_R33, main_R46, main_prefix, main_rest.
  - rewrite Ht, Hf. reflexivity.
  - rewrite Ht, Hf. rewrite bind_assoc. apply bind_ext. intros _ s1.
    by rewrite bind_assoc.
Qed.

Lemma no_exit_main_tail env rev target bootmac :
  no_exit
    match rev with
    | R33 =>
        set_autorelabel env target;;
        write_network_config_R33 env target bootmac
    | R46 =>
        curtin_config ← load_config env (st_config (command_environment env));
        print (PConfig curtin_config);;
        network_config ← get_nertwork_config curtin_config;
        print (PNetwork network_config);;
        set_autorelabel env target;;
        write_network_config_R46 env target bootmac network_config
    end.
Proof.
  pose proof (no_exit_set_autorelabel env target).
  pose proof (no_exit_write_network_config_R33 env target bootmac).
  pose proof (no_exit_write_network_config_R46 env target bootmac).
  pose proof (no_exit_load_config env).
  pose proof no_exit_get_nertwork_config.
  destruct rev; noexit.
Qed.

Lemma main_rest_split env rev target fstab bootmac st :
  main_rest env rev target fstab bootmac st
  = (main_install env rev target fstab;;
     match rev with
     | R33 =>
         set_autorelabel env target;;
         write_network_config_R33 env target bootmac
     | R46 =>
         curtin_config ← load_config env (st_config (command_environment env));
         print (PConfig curtin_config);;
         network_config ← get_nertwork_config curtin_config;
         print (PNetwork network_config);;
         set_autorelabel env target;;
         write_network_config_R46 env target bootmac network_config
     end) st.
Proof. by destruct rev. Qed.

(** How [main] can end: normally only when nothing was missing; by
    [sys.exit] only with status 1 and only when something was. *)
Lemma main_outcome env rev st r st' :
  main env rev st = (r, st') →
  match r with
  | Ok _ => ¬ missing_or_undiscoverable env rev st
  | Exit c => c = 1%Z ∧ missing_or_undiscoverable env rev st
  | Raise _ => True
  end.
Proof.
  destruct (st_target (command_environment env)) as [target |] eqn:Ht.
  2: { destruct rev; unfold main, main_R33, main_R46; rewrite Ht.
       - unfold bind, print, sys_exit. simpl. intros [= <- <-].
         split; [done |]. by left.
       - unfold bind, print_opt, print, tmp_dir_EFI_dir, raise. simpl.
         by intros [= <- <-]. }
  destruct (st_fstab (command_environment env)) as [fstab |] eqn:Hf.
  2: { destruct rev; unfold main, main_R33, main_R46; rewrite Ht, Hf.
       - unfold bind, print, sys_exit. simpl. intros [= <- <-].
         split; [done |]. right. by left.
       - intros H.
         apply bind_inv in H as [(? & s1 & _ & H) | [(c & Hx & ->) | (e & Hx & ->)]];
           [| by destruct (no_exit_elim _ _ _ _ (no_exit_print_opt _) Hx) | done].
         apply bind_inv in H as [(? & s2 & _ & H) | [(c & Hx & ->) | (e & Hx & ->)]];
           [| by destruct (no_exit_elim _ _ _ _ (no_exit_tmp_dir_EFI_dir _ _) Hx)
            | done].
         revert H. unfold bind, print, sys_exit. simpl. intros [= <- <-].
         split; [done |]. right. by left. }
  rewrite (main_decompose env rev st target fstab Ht Hf). intros H.
  apply bind_inv in H as [(? & s1 & Hpre & H) | [(c & Hx & ->) | (e & Hx & ->)]];
    [| by destruct (no_exit_elim _ _ _ _ (no_exit_main_prefix _ _ _) Hx) | done].
  assert (files s1 = files st) as Hfiles.
  { pose proof (keeps_files_main_prefix env rev target st) as Hk.
    by rewrite Hpre in Hk. }
  apply bind_inv in H as [(bootmac & s2 & Hmac & H) | [(c & Hx & ->) | (e & Hx & ->)]];
    [| by destruct (no_exit_elim _ _ _ _ (no_exit_get_boot_mac _) Hx) | done].
  assert ((get_boot_mac rev st).1 = Ok bootmac) as Hmac'.
  { rewrite <- (get_boot_mac_files rev s1 st Hfiles). by rewrite Hmac. }
  assert (s2 = s1) as ->.
  { pose proof (get_boot_mac_state rev s1) as Hs. by rewrite Hmac in Hs. }
  destruct bootmac as [bootmac |].
  2: { revert H. unfold bind, print, sys_exit. simpl. intros [= <- <-].
       split; [done |]. right. right. by left. }
  rewrite main_rest_split in H.
  apply bind_inv in H as [([] & s3 & Hins & H) | [(c & Hx & ->) | (e & Hx & ->)]];
    [| | done].
  - apply main_install_outcome in Hins as [Hdev Hpart].
    rewrite (stateless_fst _ s1 st (stateless_get_block_devices env target)) in Hdev.
    rewrite (stateless_fst _ s1 st (stateless_get_uefi_partition env)) in Hpart.
    destruct r as [[] | c | e];
      [| by destruct (no_exit_elim _ _ _ _ (no_exit_main_tail _ _ _ _) H) | done].
    intros [Hm | [Hm | [Hm | [(t & Hm & Hd) | [Hu Hp]]]]]; try congruence.
    by apply Hpart.
  - apply main_install_outcome in Hx as [-> Hx].
    rewrite (stateless_fst _ s1 st (stateless_get_block_devices env target)) in Hx.
    rewrite (stateless_fst _ s1 st (stateless_get_uefi_partition env)) in Hx.
    split; [done |]. right. right. right.
    destruct Hx as [Hx | Hx]; [left; eauto | by right].
Qed.

(** Nothing is missing and every device is found, but [grub2-mkconfig]
    fails: [main] ends by the uncaught [ProcessExecutionError], so the
    status of the process is 1, not 0. *)
Lemma main_status_1_nothing_missing :
  ¬ missing_or_undiscoverable env_mkconfig_refused R33 (st_pxe cmdline_example)
  ∧ (main env_mkconfig_refused R33 (st_pxe cmdline_example)).1
    = Raise (ProcessExecutionError [ "grub2-mkconfig"; "-o"; "/boot/grub2/grub.cfg" ])
  ∧ exit_status (main env_mkconfig_refused R33 (st_pxe cmdline_example)).1 = 1%Z
  ∧ exit_status (main env_mkconfig_refused R33 (st_pxe cmdline_example)).1 ≠ 0%Z.
Proof.
  assert ((main env_mkconfig_refused R33 (st_pxe cmdline_example)).1
          = Raise (ProcessExecutionError
                     [ "grub2-mkconfig"; "-o"; "/boot/grub2/grub.cfg" ])) as H
    by (vm_compute; reflexivity).
  split; [| split; [exact H | rewrite H; split; [reflexivity | discriminate]]].
  intros [Hm | [Hm | [Hm | [(t & Ht & Hd) | [Hu _]]]]].
  - discriminate Hm.
  - discriminate Hm.
  - vm_compute in Hm. discriminate Hm.
  - injection Ht as <-. vm_compute in Hd. discriminate Hd.
  - discriminate Hu.
Qed.

(** C1 (amended).  [main] exits with status 1 whenever a required
    environment value (target, fstab) is missing or the boot interface, a
    block device for the target or, on a UEFI machine, the UEFI partition
    is not found, and it calls [sys.exit] in these cases only.  In every
    other case it either completes, with status 0, or a step raises an
    exception that nothing catches, which ends the process with
    status 1. *)
Theorem main_exit_status (env : Env) (rev : revision) (st : State) :
  (missing_or_undiscoverable env rev st →
   exit_status (main env rev st).1 = 1%Z)
  ∧ (¬ missing_or_undiscoverable env rev st →
     ((main env rev st).1 = Ok tt ∧ exit_status (main env rev st).1 = 0%Z)
     ∨ (∃ e, (main env rev st).1 = Raise e ∧ exit_status (main env rev st).1 = 1%Z))
  ∧ (∀ c, (main env rev st).1 = Exit c →
          c = 1%Z ∧ missing_or_undiscoverable env rev st).
Proof.
  destruct (main env rev st) as [r st'] eqn:E.
  pose proof (main_outcome env rev st r st' E) as H. simpl.
  destruct r as [[] | c | e]; simpl.
  - split; [done |]. split; [by left |]. by intros c [=].
  - destruct H as [-> H]. split; [done |]. split; [done |].
    by intros c [= <-].
  - split; [done |]. split; [right; by exists e |]. by intros c [=].
Qed.

(** Both revisions do complete on a machine where nothing fails. *)
Example main_completes :
  (main (env_ok false) R33 (st_pxe cmdline_example)).1 = Ok tt
  ∧ (main (env_ok true) R33 (st_pxe cmdline_example)).1 = Ok tt
  ∧ (main (env_ok false) R46 (st_pxe cmdline_example)).1 = Ok tt
  ∧ (main (env_ok true) R46 (st_pxe cmdline_example)).1 = Ok tt.
Proof. repeat split; vm_compute; reflexivity. Qed.

(** ** Malformed network configuration (later revision) *)












(** The malformed configs at work: the exception of
    [write_network_config] when there is no config, that of
    [get_address_gatway_message] when the interface has no subnet. *)
Example main_malformed_network_config :
  (main env_config_null R46 (st_pxe cmdline_example)).1
  = Raise (PyException "can not find network config, some bad thing happened")
  ∧ (main env_config_no_subnet R46 (st_pxe cmdline_example)).1
    = Raise (PyException "some bad thing happen, address:None, gateway:None").
Proof. split; vm_compute; reflexivity. Qed.

(** ** The string operations on examples *)

Example split_ws_example :
  PyStr.split_ws false "  ro quiet  --  a=b " = [ "ro"; "quiet"; "--"; "a=b" ].
Proof. reflexivity. Qed.

Example split_ws_unicode_example :
  PyStr.split_ws true ("ro" +:+ String (ascii_of_nat 160) "quiet") = [ "ro"; "quiet" ]
  ∧ PyStr.split_ws false ("ro" +:+ String (ascii_of_nat 160) "quiet")
    = [ "ro" +:+ String (ascii_of_nat 160) "quiet" ].
Proof. split; reflexivity. Qed.

Example split_char_example :
  PyStr.split_char "-" "01-aa-bb" = [ "01"; "aa"; "bb" ]
  ∧ PyStr.split_char "=" "BOOTIF" = [ "BOOTIF" ]
  ∧ PyStr.split_char "=" "a=" = [ "a"; "" ].
Proof. repeat split; reflexivity. Qed.

Example replace_example :
  PyStr.replace "/24" "" "10.0.0.5/24" = "10.0.0.5"
  ∧ PyStr.replace "aa" "b" "aaaaa" = "bba".
Proof. split; vm_compute; reflexivity. Qed.

Example os_path_join_example :
  os_path_join "/t" [ "etc"; "fstab" ] = "/t/etc/fstab"
  ∧ os_path_join "/t/" [ "etc"; "fstab" ] = "/t/etc/fstab"
  ∧ os_path_join "" [ "etc"; "fstab" ] = "etc/fstab"
  ∧ os_path_join "/t" [ "boot"; "/abs" ] = "/abs".
Proof. repeat split; vm_compute; reflexivity. Qed.

Example strip_lower_example :
  PyStr.lower (PyStr.strip false (" AA:Bb" +:+ PyStr.nl)) = "aa:bb"
  ∧ PyStr.upper "aa:bb" = "AA:BB".
Proof. split; vm_compute; reflexivity. Qed.

Example get_extra_kernel_parameters_example :
  (get_extra_kernel_parameters R33 (st_pxe cmdline_example)).1
  = Ok [ "console=tty0" ].
Proof. vm_compute. reflexivity. Qed.

(** * Further properties of the hook *)

(** ** Kernel parameters *)

(** [strip_kernel_params] keeps, in their order, exactly the parameters
    that start with none of the given prefixes; with no prefix (its
    default) it returns the parameters as they are, and stripping twice
    is stripping once. *)
Theorem strip_kernel_params_keeps_the_rest (params strips : list string) :
  (∀ p, p ∈ strip_kernel_params params strips
        ↔ p ∈ params ∧ ∀ strip, strip ∈ strips → PyStr.startswith p strip = false)
  ∧ strip_kernel_params params strips `sublist_of` params
  ∧ strip_kernel_params params [] = params
  ∧ strip_kernel_params (strip_kernel_params params strips) strips
    = strip_kernel_params params strips.
Proof.
  rewrite !strip_kernel_params_filter.
  assert (∀ p, existsb (λ strip, PyStr.startswith p strip) strips = false
               ↔ ∀ strip, strip ∈ strips → PyStr.startswith p strip = false) as Hex.
  { intros p. induction strips as [| s strips IH]; simpl.
    - split; [intros _ strip Hin; by apply elem_of_nil in Hin | done].
    - rewrite orb_false_iff, IH. split.
      + intros [Hs Hrest] strip Hin. apply elem_of_cons in Hin as [-> | Hin]; auto.
      + intros H. split; [apply H, elem_of_cons; by left |].
        intros strip Hin. apply H, elem_of_cons. by right. }
  split; [| split; [| split]].
  - intros p. rewrite list_elem_of_filter, Hex. tauto.
  - apply sublist_filter.
  - simpl. induction params as [| p params IH]; [done |].
    rewrite filter_cons. simpl. by rewrite IH.
  - apply list_filter_filter_l. done.
Qed.

Lemma list_index_first x (pre post : list string) :
  x ∉ pre → list_index x (pre ++ x :: post) = Some (length pre).
Proof.
  induction pre as [| y pre IH]; intros Hno; simpl.
  - by rewrite bool_decide_eq_true_2.
  - apply not_elem_of_cons in Hno as [Hne Hno].
    rewrite bool_decide_eq_false_2 by done. by rewrite IH.
Qed.

(** When the kernel command line has a ["--"] token,
    [get_extra_kernel_parameters] returns the tokens that follow the
    first one, in their order, without those that start with
    ["initrd="], ["BOOT_IMAGE="] or ["BOOTIF="]; a later ["--"] is a token
    like any other. *)
Theorem get_extra_kernel_parameters_after_separator (rev : revision)
    (st : State) (cmdline : string) (pre post : list string) :
  read_file rev proc_cmdline st = (Ok cmdline, st) →
  PyStr.split_ws (unicode_text rev) cmdline = pre ++ "--" :: post →
  "--" ∉ pre →
  get_extra_kernel_parameters rev st
  = (Ok (filter (λ p, unwanted p = false) post), st).
Proof.
  intros Hread Htok Hpre. unfold get_extra_kernel_parameters.
  rewrite (bind_ok _ _ _ _ _ Hread). rewrite Htok.
  rewrite bool_decide_eq_true_2
    by (apply elem_of_app; right; apply elem_of_cons; by left).
  simpl. unfold bind at 1. rewrite (list_index_first _ _ _ Hpre). simpl.
  rewrite length_app. simpl.
  destruct (_ <=? _)%nat eqn:E; [apply Nat.leb_le in E; lia |].
  rewrite strip_kernel_params_filter, drop_app_add. reflexivity.
Qed.

Lemma get_extra_kernel_parameters_after_separator_witness :
  get_extra_kernel_parameters R46
    (st_pxe "ro -- console=tty0 initrd=img -- BOOTIF=01-aa quiet")
  = (Ok (filter (λ p, unwanted p = false)
           [ "console=tty0"; "initrd=img"; "--"; "BOOTIF=01-aa"; "quiet" ]),
     st_pxe "ro -- console=tty0 initrd=img -- BOOTIF=01-aa quiet").
Proof.
  apply (get_extra_kernel_parameters_after_separator R46 _
           "ro -- console=tty0 initrd=img -- BOOTIF=01-aa quiet" [ "ro" ]).
  - vm_compute. reflexivity.
  - vm_compute. reflexivity.
  - intros H. apply (bool_decide_pack _) in H. vm_compute in H. exact H.
Defined.

(** ** The boot MAC, in general *)

Lemma split_char_app_sep c a b :
  contains_char c a = false →
  PyStr.split_char c (a +:+ String c b) = a :: PyStr.split_char c b.
Proof.
  induction a as [| x a IH]; intros H.
  - change ("" +:+ String c b) with (String c b). simpl.
    by rewrite Ascii.eqb_refl.
  - simpl in H. apply orb_false_iff in H as [Hx Ha].
    change (String x a +:+ String c b) with (String x (a +:+ String c b)).
    simpl. rewrite Hx, (IH Ha). reflexivity.
Qed.

Lemma split_char_join c (l : list string) :
  l ≠ [] →
  Forall (λ f, contains_char c f = false) l →
  PyStr.split_char c (PyStr.join (String c "") l) = l.
Proof.
  intros Hne Hall. induction Hall as [| x l Hx Hall IH]; [done |].
  destruct l as [| y l].
  - simpl. by apply split_char_absent.
  - change (PyStr.join (String c "") (x :: y :: l))
      with (x +:+ String c "" +:+ PyStr.join (String c "") (y :: l)).
    change (String c "" +:+ PyStr.join (String c "") (y :: l))
      with (String c (PyStr.join (String c "") (y :: l))).
    rewrite (split_char_app_sep _ _ _ Hx). by rewrite IH.
Qed.

Lemma contains_char_app c a b :
  contains_char c (a +:+ b) = contains_char c a || contains_char c b.
Proof.
  induction a as [| x a IH]; [done |].
  change (String x a +:+ b) with (String x (a +:+ b)). simpl.
  by rewrite IH, orb_assoc.
Qed.

Lemma contains_char_join c sep (l : list string) :
  contains_char c sep = false →
  Forall (λ f, contains_char c f = false) l →
  contains_char c (PyStr.join sep l) = false.
Proof.
  intros Hsep Hall. induction Hall as [| x l Hx Hall IH]; [done |].
  destruct l as [| y l]; [done |].
  change (PyStr.join sep (x :: y :: l))
    with (x +:+ sep +:+ PyStr.join sep (y :: l)).
  by rewrite !contains_char_app, Hx, Hsep, IH.
Qed.

Lemma split_char_length c s :
  length (PyStr.split_char c s) = S (count_char c s).
Proof.
  induction s as [| a s IH]; [done |]. simpl.
  destruct (Ascii.eqb a c); simpl; [by rewrite IH |].
  destruct (PyStr.split_char c s); simpl in *; congruence.
Qed.

(** Whatever follows ["BOOTIF"] in the name of the token, and whatever
    the first dash-separated field of its value is, [get_boot_mac] drops
    that field and joins the others with colons: on a value made by
    joining fields with dashes it gives back the fields after the first,
    joined with colons. *)
Theorem get_boot_mac_fields (rev : revision) (st : State)
    (cmdline key first : string) (fields : list string) :
  read_file rev proc_cmdline st = (Ok cmdline, st) →
  List.find (λ tok, PyStr.startswith tok "BOOTIF")
            (PyStr.split_ws (unicode_text rev) cmdline)
    = Some (key +:+ "=" +:+ PyStr.join "-" (first :: fields)) →
  contains_char "=" key = false →
  Forall (λ f, contains_char "=" f = false ∧ contains_char "-" f = false)
         (first :: fields) →
  get_boot_mac rev st = (Ok (Some (PyStr.join ":" fields)), st).
Proof.
  intros Hread Hfirst Hkey Hall. unfold get_boot_mac.
  rewrite (bind_ok _ _ _ _ _ Hread). rewrite filter_head_find, Hfirst.
  assert (Forall (λ f, contains_char "=" f = false) (first :: fields)) as Heq
    by (eapply Forall_impl; [exact Hall | by intros ? [? ?]]).
  assert (Forall (λ f, contains_char "-" f = false) (first :: fields)) as Hdash
    by (eapply Forall_impl; [exact Hall | by intros ? [? ?]]).
  change ("=" +:+ PyStr.join "-" (first :: fields))
    with (String "="%char (PyStr.join "-" (first :: fields))).
  rewrite (split_char_app_sep _ _ _ Hkey).
  rewrite split_char_absent by (by apply contains_char_join).
  rewrite (split_char_join "-"%char (first :: fields)) by done.
  reflexivity.
Qed.

Lemma get_boot_mac_fields_witness :
  get_boot_mac R46 (st_pxe "ro BOOTIF_X=ff-Aa-b:c quiet")
  = (Ok (Some (PyStr.join ":" [ "Aa"; "b:c" ])), st_pxe "ro BOOTIF_X=ff-Aa-b:c quiet").
Proof.
  apply (get_boot_mac_fields R46 _ "ro BOOTIF_X=ff-Aa-b:c quiet" "BOOTIF_X" "ff").
  - vm_compute. reflexivity.
  - vm_compute. reflexivity.
  - reflexivity.
  - repeat constructor.
Defined.

(** Once the command line is read, [get_boot_mac] returns [None] exactly
    when no token starts with ["BOOTIF"], and raises [ValueError] exactly
    when the first such token does not have exactly one ['=']. *)
Theorem get_boot_mac_outcomes (rev : revision) (st : State) (cmdline : string) :
  read_file rev proc_cmdline st = (Ok cmdline, st) →
  (get_boot_mac rev st = (Ok None, st)
   ↔ ∀ tok, tok ∈ PyStr.split_ws (unicode_text rev) cmdline →
            PyStr.startswith tok "BOOTIF" = false)
  ∧ (∀ tok,
       List.find (λ tok, PyStr.startswith tok "BOOTIF")
                 (PyStr.split_ws (unicode_text rev) cmdline) = Some tok →
       (get_boot_mac rev st
        = (Raise (ValueError "wrong number of values to unpack"), st)
        ↔ count_char "=" tok ≠ 1)).
Proof.
  intros Hread. unfold get_boot_mac.
  rewrite (bind_ok _ _ _ _ _ Hread). rewrite filter_head_find.
  set (tokens := PyStr.split_ws (unicode_text rev) cmdline).
  split.
  - destruct (List.find _ tokens) as [tok |] eqn:E.
    + split.
      * intros H. exfalso.
        destruct (PyStr.split_char "=" tok) as [| ? [| ? [| ? ?]]]; discriminate H.
      * intros H. apply List.find_some in E as [Hin Hs].
        apply list_elem_of_In in Hin. rewrite (H _ Hin) in Hs. discriminate.
    + split; [| done]. intros _ tok Hin. apply list_elem_of_In in Hin.
      by apply (List.find_none _ _ E).
  - intros tok ->. pose proof (split_char_length "=" tok) as Hlen.
    destruct (PyStr.split_char "=" tok) as [| a [| b [| c l]]]; simpl in Hlen.
    + discriminate.
    + split; [intros _; lia | done].
    + split; [discriminate | intros H; lia].
    + split; [intros _; lia | done].
Qed.

Lemma get_boot_mac_outcomes_witness :
  get_boot_mac R33 (st_pxe "ro quiet") = (Ok None, st_pxe "ro quiet")
  ↔ ∀ tok, tok ∈ PyStr.split_ws (unicode_text R33) "ro quiet" →
           PyStr.startswith tok "BOOTIF" = false.
Proof.
  apply (get_boot_mac_outcomes R33 (st_pxe "ro quiet") "ro quiet").
  vm_compute. reflexivity.
Defined.

(** ** Devices *)

(** [get_uefi_partition] returns the first entry of [block._lsblock()],
    in the order of iteration, whose label is ["uefi-boot"], and [None]
    exactly when no entry has that label. *)
Theorem get_uefi_partition_first_match (env : Env) (st : State)
    (items : list (string * blockinfo)) :
  lsblock env = inr items →
  (∀ v, get_uefi_partition env st = (Ok (Some v), st) →
        ∃ pre k post,
          items = pre ++ (k, v) :: post
          ∧ LABEL v = "uefi-boot"
          ∧ Forall (λ kv, LABEL kv.2 ≠ "uefi-boot") pre)
  ∧ (get_uefi_partition env st = (Ok None, st)
     ↔ Forall (λ kv, LABEL kv.2 ≠ "uefi-boot") items)
  ∧ ∃ r, get_uefi_partition env st = (Ok r, st).
Proof.
  intros Hls. unfold get_uefi_partition, bind. rewrite Hls. simpl.
  unfold ret. split; [| split; [| by eauto]].
  - intros v [= Hv]. revert Hv. clear Hls.
    induction items as [| [k w] items IH]; [done |]. simpl.
    case_bool_decide as Hl.
    + intros [= ->]. exists [], k, items. by repeat split.
    + intros Hv. destruct (IH Hv) as (pre & k' & post & -> & Hlab & Hpre).
      exists ((k, w) :: pre), k', post. repeat split; [done |].
      by constructor.
  - clear Hls. induction items as [| [k w] items IH]; [by split |]. simpl.
    case_bool_decide as Hl.
    + split; [done |]. intros H. by inversion H.
    + rewrite IH. split; [by constructor | intros H; by inversion H].
Qed.

Lemma get_uefi_partition_first_match_witness :
  ∃ r, get_uefi_partition (env_ok true) st_empty = (Ok r, st_empty).
Proof.
  apply (get_uefi_partition_first_match (env_ok true) st_empty
           [ ("sda1", {| LABEL := "uefi-boot"; device_path := "/dev/sda1" |}) ]).
  reflexivity.
Defined.

Lemma block_devices_loop env (devs : list string) (acc : gset string) st :
  (∀ d, d ∈ devs → ∃ bp, get_blockdev_for_partition env d = inr bp) →
  ∃ S : gset string,
    for_each devs
      (λ (blockdevs : gset string) maybepart,
         bp ← lift (get_blockdev_for_partition env maybepart);
         ret ({[ bp.1 ]} ∪ blockdevs)) acc st = (Ok S, st)
    ∧ ∀ b, b ∈ S ↔ b ∈ acc
                   ∨ ∃ d part, d ∈ devs
                               ∧ get_blockdev_for_partition env d = inr (b, part).
Proof.
  revert acc. induction devs as [| d devs IH]; intros acc Hall.
  - exists acc. split; [done |]. intros b. split; [by left |].
    intros [H | (d & part & Hd & _)]; [done | by apply elem_of_nil in Hd].
  - destruct (Hall d) as [[b0 p0] Hd]; [apply elem_of_cons; by left |].
    destruct (IH ({[ b0 ]} ∪ acc)) as (S & HS & Hmem).
    { intros d' Hd'. apply Hall, elem_of_cons. by right. }
    exists S. split.
    + simpl. unfold bind at 1. unfold bind at 1. rewrite Hd. simpl. exact HS.
    + intros b. rewrite Hmem, elem_of_union, elem_of_singleton. split.
      * intros [[-> | H] | (d' & part & Hd' & Hl)]; [| by left |].
        -- right. exists d, p0. split; [apply elem_of_cons; by left | done].
        -- right. exists d', part. split; [apply elem_of_cons; by right | done].
      * intros [H | (d' & part & Hd' & Hl)]; [left; by right |].
        apply elem_of_cons in Hd' as [-> | Hd'].
        -- left. left. congruence.
        -- right. eauto.
Qed.

(** When curtin resolves every device of the target, [get_block_devices]
    returns each of their block devices once, however many partitions
    lie on it, and nothing else; the list is empty only when the target
    has no device. *)
Theorem get_block_devices_once_each (env : Env) (target : string) (st : State)
    (devs : list string) :
  get_devices_for_mp env target = inr devs →
  (∀ d, d ∈ devs → ∃ bp, get_blockdev_for_partition env d = inr bp) →
  ∃ l,
    get_block_devices env target st = (Ok l, st)
    ∧ NoDup l
    ∧ (∀ b, b ∈ l ↔ ∃ d part, d ∈ devs
                               ∧ get_blockdev_for_partition env d = inr (b, part))
    ∧ (l = [] ↔ devs = []).
Proof.
  intros Hdevs Hall.
  destruct (block_devices_loop env devs ∅ st Hall) as (S & HS & Hmem).
  exists (elements S). unfold get_block_devices.
  unfold bind at 1. rewrite Hdevs. simpl. unfold bind at 1. rewrite HS.
  split; [done |]. split; [apply NoDup_elements |].
  assert (∀ b, b ∈ elements S
               ↔ ∃ d part, d ∈ devs
                           ∧ get_blockdev_for_partition env d = inr (b, part)) as Hel.
  { intros b. rewrite elem_of_elements, Hmem. split; [| by right].
    intros [H | H]; [by apply not_elem_of_empty in H | done]. }
  split; [exact Hel |]. split.
  - intros Hnil. destruct devs as [| d devs]; [done |]. exfalso.
    destruct (Hall d) as [[b p] Hd]; [apply elem_of_cons; by left |].
    assert (b ∈ elements S) as Hin
      by (apply Hel; exists d, p; split; [apply elem_of_cons; by left | done]).
    rewrite Hnil in Hin. by apply elem_of_nil in Hin.
  - intros ->. destruct (elements S) as [| b l] eqn:E; [done |]. exfalso.
    assert (b ∈ b :: l) as Hin by (apply elem_of_cons; by left).
    apply Hel in Hin as (d & _ & Hd & _). by apply elem_of_nil in Hd.
Qed.

Lemma get_block_devices_once_each_witness :
  ∃ l,
    get_block_devices (env_ok false) "/t" st_empty = (Ok l, st_empty)
    ∧ NoDup l
    ∧ (∀ b, b ∈ l ↔ ∃ d part, d ∈ [ "/dev/sda1"; "/dev/sda2" ]
                               ∧ get_blockdev_for_partition (env_ok false) d
                                 = inr (b, part))
    ∧ (l = [] ↔ [ "/dev/sda1"; "/dev/sda2" ] = []).
Proof.
  apply (get_block_devices_once_each (env_ok false) "/t" st_empty
           [ "/dev/sda1"; "/dev/sda2" ]).
  - reflexivity.
  - intros d _. exists ("/dev/sda", "1"). reflexivity.
Defined.

(** ** Interfaces *)












(** ** The interface file *)

Lemma join_nl_lines (l : list string) :
  l ≠ [] → PyStr.join PyStr.nl l +:+ PyStr.nl = PyStr.lines l.
Proof.
  intros Hne. induction l as [| x l IH]; [done |].
  destruct l as [| y l].
  - simpl. unfold PyStr.lines. simpl. by rewrite string_app_nil_r.
  - change (PyStr.join PyStr.nl (x :: y :: l))
      with (x +:+ PyStr.nl +:+ PyStr.join PyStr.nl (y :: l)).
    change (PyStr.lines (x :: y :: l))
      with (x +:+ PyStr.nl +:+ PyStr.lines (y :: l)).
    rewrite <- IH by done. by rewrite !string_app_assoc.
Qed.

Ltac dict_lookup :=
  repeat first
    [ rewrite lookup_insert_eq
    | rewrite lookup_insert_ne by discriminate
    | rewrite lookup_empty ].

(** What [write_interface_config] does with a dictionary of family
    ["inet"] once the lines of the file are known. *)
Lemma write_interface_config_inet env rev target iface data config st :
  data !! "family" = Some (VStr "inet") →
  get_ipv4_config rev iface data st = (Ok config, st) →
  writable env (ifcfg_path target iface) "w" →
  (write_interface_config env rev target iface data st).1 = Ok tt
  ∧ files (write_interface_config env rev target iface data st).2
    = <[ ifcfg_path target iface := config +:+ PyStr.nl ]> (files st).
Proof.
  intros Hfam Hcfg [Hopen Hwrite].
  assert (∃ st', write_interface_config env rev target iface data st = (Ok tt, st')
                 ∧ files st' = <[ ifcfg_path target iface := config +:+ PyStr.nl ]>
                                 (files st)) as (st' & -> & Hf).
  { unfold write_interface_config. fold (ifcfg_path target iface).
    unfold bind at 1, dict_get. rewrite Hfam. cbn [ret negb].
    rewrite bool_decide_eq_true_2 by done. cbn [negb].
    rewrite (bind_ok _ _ _ _ _ Hcfg).
    unfold bind, open_write, sys. rewrite Hopen. cbn [orb]. cbv beta iota.
    unfold stream_write. rewrite Hwrite.
    eexists. split; [reflexivity |]. unfold content. cbn [files set_files log].
    rewrite lookup_insert_eq, insert_insert_eq. reflexivity. }
  done.
Qed.

(** When the boot interface is found and its file can be opened and
    written, the earlier [write_network_config] writes, to the file
    [ifcfg-<name>] of that interface under the target, the eight lines
    of a DHCP configuration bound to the upper-case MAC, and changes no
    other file. *)
Theorem write_network_config_R33_writes (env : Env) (target mac : string)
    (st : State) (inames : gmap string string) (iname : string) :
  get_interface_names env R33 st = (Ok inames, st) →
  inames !! PyStr.lower mac = Some iname →
  writable env (ifcfg_path target iname) "w" →
  (write_network_config_R33 env target mac st).1 = Ok tt
  ∧ files (write_network_config_R33 env target mac st).2
    = <[ ifcfg_path target iname :=
           PyStr.lines
             [ setting "TYPE" "Ethernet";
               setting "NM_CONTROLLED" "no";
               setting "USERCTL" "yes";
               setting "HWADDR" (PyStr.upper mac);
               setting "ONBOOT" "yes";
               setting "BOOTPROTO" "dhcp";
               setting "PEERDNS" "yes";
               setting "PERSISTENT_DHCLIENT" "1" ] ]> (files st).
Proof.
  intros Hn Hi Hw.
  assert (write_network_config_R33 env target mac st
          = write_interface_config env R33 target iname
              (<[ "family" := VStr "inet" ]>
                (<[ "hwaddress" := VStr (PyStr.upper mac) ]>
                  (<[ "auto" := VBool true ]>
                    (<[ "method" := VStr "dhcp" ]> ∅)))) st) as ->.
  { unfold write_network_config_R33. rewrite (bind_ok _ _ _ _ _ Hn).
    unfold bind, dict_get. by rewrite Hi. }
  rewrite <- join_nl_lines by done.
  apply write_interface_config_inet; [by dict_lookup | | done].
  unfold get_ipv4_config, bind, dict_get. dict_lookup. reflexivity.
Qed.

Lemma write_network_config_R33_writes_witness :
  (write_network_config_R33 (env_ok false) "/t" "aa:BB:cc:dd:ee:ff"
     (st_pxe cmdline_example)).1 = Ok tt.
Proof.
  apply (write_network_config_R33_writes (env_ok false) "/t" "aa:BB:cc:dd:ee:ff"
           (st_pxe cmdline_example) {[ "aa:bb:cc:dd:ee:ff" := "eth0" ]} "eth0").
  - vm_compute. reflexivity.
  - reflexivity.
  - split; reflexivity.
Defined.

(** A dictionary whose family is not ["inet"], or that has none, makes
    [write_interface_config] raise ([TypeError] from the warning, which
    applies a string to its arguments, or [KeyError]) before anything is
    printed or written. *)
Theorem write_interface_config_other_family (env : Env) (rev : revision)
    (target iface : string) (data : gmap string pyobj) (st : State) :
  data !! "family" ≠ Some (VStr "inet") →
  write_interface_config env rev target iface data st
  = (Raise match data !! "family" with
           | Some _ => TypeError "'str' object is not callable"
           | None => KeyError "family"
           end, st).
Proof.
  intros Hfam. unfold write_interface_config, bind, dict_get.
  destruct (data !! "family") as [family |]; simpl; [| done].
  rewrite bool_decide_eq_false_2 by congruence. done.
Qed.

Lemma write_interface_config_other_family_witness :
  write_interface_config (env_ok false) R46 "/t" "eth0"
    {[ "family" := VStr "inet6" ]} st_empty
  = (Raise match ({[ "family" := VStr "inet6" ]} : gmap string pyobj) !! "family" with
           | Some _ => TypeError "'str' object is not callable"
           | None => KeyError "family"
           end, st_empty).
Proof.
  apply (write_interface_config_other_family (env_ok false) R46 "/t" "eth0"
           {[ "family" := VStr "inet6" ]} st_empty).
  discriminate.
Defined.



(** ** Address and gateway (later revision) *)


(** When the boot interface is found, the network config gives it an
    address and a gateway and its file can be opened and written, the
    later [write_network_config] writes a static configuration with that
    address and gateway and the fixed netmask 255.255.255.0, and changes
    no other file. *)
Theorem write_network_config_R46_writes (env : Env) (target mac : string)
    (network_config : list config_line) (st : State)
    (inames : gmap string string) (iname : string) (address gateway : pyobj) :
  get_interface_names env R46 st = (Ok inames, st) →
  inames !! PyStr.lower mac = Some iname →
  get_address_gatway_message network_config iname st = (Ok (address, gateway), st) →
  writable env (ifcfg_path target iname) "w" →
  (write_network_config_R46 env target mac (Some network_config) st).1 = Ok tt
  ∧ files (write_network_config_R46 env target mac (Some network_config) st).2
    = <[ ifcfg_path target iname :=
           PyStr.lines
             [ setting "TYPE" "Ethernet";
               setting "NM_CONTROLLED" "no";
               setting "USERCTL" "yes";
               setting "HWADDR" (PyStr.upper mac);
               setting "ONBOOT" "yes";
               setting "BOOTPROTO" "static";
               setting "IPADDR" (py_str address);
               setting "NETMASK" "255.255.255.0";
               setting "GATEWAY" (py_str gateway) ] ]> (files st).
Proof.
  intros Hn Hi Hag Hw.
  assert (write_network_config_R46 env target mac (Some network_config) st
          = write_interface_config env R46 target iname
              (<[ "family" := VStr "inet" ]>
                (<[ "hwaddress" := VStr (PyStr.upper mac) ]>
                  (<[ "auto" := VBool true ]>
                    (<[ "method" := VStr "static" ]>
                      (<[ "address" := address ]>
                        (<[ "gateway" := gateway ]>
                          (<[ "netmask" := VStr "255.255.255.0" ]> ∅)))))))
              st) as ->.
  { unfold write_network_config_R46. rewrite (bind_ok _ _ _ _ _ Hn).
    unfold bind at 1, dict_get. rewrite Hi. cbn [ret].
    by rewrite (bind_ok _ _ _ _ _ Hag). }
  rewrite <- join_nl_lines by done.
  apply write_interface_config_inet; [by dict_lookup | | done].
  unfold get_ipv4_config, bind, dict_get. dict_lookup. reflexivity.
Qed.

Lemma write_network_config_R46_writes_witness :
  (write_network_config_R46 (env_ok false) "/t" "aa:BB:cc:dd:ee:ff"
     (Some config_two_subnets) (st_pxe cmdline_example)).1 = Ok tt.
Proof.
  apply (write_network_config_R46_writes (env_ok false) "/t" "aa:BB:cc:dd:ee:ff"
           config_two_subnets (st_pxe cmdline_example)
           {[ "aa:bb:cc:dd:ee:ff" := "eth0" ]} "eth0"
           (VStr "192.168.1.7") (VStr "192.168.1.1")).
  - vm_compute. reflexivity.
  - reflexivity.
  - vm_compute. reflexivity.
  - split; reflexivity.
Defined.

(** ** The boot loader on a BIOS machine *)

Lemma grub2_install_loop env target (pre rest : list string) st :
  (∀ s dev, dev ∈ pre → sys_fails env s (grub2_install_call target dev) = false) →
  ∃ st1,
    for_each (pre ++ rest) (λ _ dev, grub2_install env target dev) tt st
    = for_each rest (λ _ dev, grub2_install env target dev) tt st1
    ∧ trace st1 = trace st ++ ((λ dev, (grub2_install_call target dev, true)) <$> pre)
    ∧ files st1 = files st ∧ mounts st1 = mounts st ∧ dirs st1 = dirs st.
Proof.
  revert st. induction pre as [| dev pre IH]; intros st Hok.
  { exists st. by rewrite app_nil_r. }
  destruct (IH (log (grub2_install_call target dev) true st))
    as (st1 & Hrun & Htrace & Hfiles & Hmounts & Hdirs).
  { intros s d Hd. apply Hok, elem_of_cons. by right. }
  exists st1. split; [| split; [| done]].
  - simpl. unfold bind at 1, grub2_install at 1, run_in_chroot, sys.
    fold (grub2_install_call target dev).
    rewrite (Hok st dev) by (apply elem_of_cons; by left). exact Hrun.
  - rewrite Htrace. simpl. by rewrite <- app_assoc.
Qed.

(** On a BIOS machine, after [grub2-mkconfig], [main] runs
    [grub2-install --recheck] on the block devices one by one, in the
    order of the list, and nothing else.  It stops at the first device
    whose installation fails, with the exception of that command: the
    devices behind it are not tried. *)
Theorem grub2_install_device_by_device (env : Env) (rev : revision)
    (target : string) (pre : list string) (st : State) :
  is_uefi_bootable env = false →
  (∀ s, sys_fails env s (grub2_mkconfig_call target) = false) →
  (∀ s dev, dev ∈ pre → sys_fails env s (grub2_install_call target dev) = false) →
  ((main_boot_loader env rev target pre st).1 = Ok tt
   ∧ trace (main_boot_loader env rev target pre st).2
     = trace st ++ (grub2_mkconfig_call target, true)
                   :: ((λ dev, (grub2_install_call target dev, true)) <$> pre))
  ∧ (∀ dev post,
       (∀ s, sys_fails env s (grub2_install_call target dev) = true) →
       (main_boot_loader env rev target (pre ++ dev :: post) st).1
       = Raise (ProcessExecutionError [ "grub2-install"; "--recheck"; dev ])
       ∧ trace (main_boot_loader env rev target (pre ++ dev :: post) st).2
         = trace st ++ (grub2_mkconfig_call target, true)
                       :: ((λ dev, (grub2_install_call target dev, true)) <$> pre)
                       ++ [ (grub2_install_call target dev, false) ]).
Proof.
  intros Hbios Hmk Hok.
  assert (∀ devices,
            main_boot_loader env rev target devices st
            = for_each devices (λ _ dev, grub2_install env target dev) tt
                (log (grub2_mkconfig_call target) true st)) as Hstart.
  { intros devices. unfold main_boot_loader. rewrite Hbios.
    unfold bind at 1, grub2_mkconfig, run_in_chroot, sys.
    fold (grub2_mkconfig_call target). by rewrite Hmk. }
  split.
  - rewrite Hstart.
    destruct (grub2_install_loop env target pre []
                (log (grub2_mkconfig_call target) true st) Hok)
      as (st1 & Hrun & Htrace & _).
    rewrite app_nil_r in Hrun. rewrite Hrun. simpl. split; [done |].
    rewrite Htrace. simpl. by rewrite <- app_assoc.
  - intros dev post Hbad. rewrite Hstart.
    destruct (grub2_install_loop env target pre (dev :: post)
                (log (grub2_mkconfig_call target) true st) Hok)
      as (st1 & Hrun & Htrace & _).
    assert (for_each (dev :: post) (λ _ dev, grub2_install env target dev) tt st1
            = (Raise (ProcessExecutionError [ "grub2-install"; "--recheck"; dev ]),
               log (grub2_install_call target dev) false st1)) as Hstop.
    { simpl. unfold bind, grub2_install, run_in_chroot, sys.
      fold (grub2_install_call target dev). by rewrite Hbad. }
    rewrite Hrun, Hstop. simpl. split; [done |].
    rewrite Htrace. simpl. by rewrite <- !app_assoc.
Qed.

Lemma grub2_install_device_by_device_witness :
  (main_boot_loader env_sdb_refused R33 "/t" [ "/dev/sda" ; "/dev/sdb"; "/dev/sdc" ]
     st_empty).1
  = Raise (ProcessExecutionError [ "grub2-install"; "--recheck"; "/dev/sdb" ])
  ∧ trace (main_boot_loader env_sdb_refused R33 "/t"
             [ "/dev/sda" ; "/dev/sdb"; "/dev/sdc" ] st_empty).2
    = trace st_empty ++ (grub2_mkconfig_call "/t", true)
        :: ((λ dev, (grub2_install_call "/t" dev, true)) <$> [ "/dev/sda" ])
        ++ [ (grub2_install_call "/t" "/dev/sdb", false) ].
Proof.
  apply (grub2_install_device_by_device env_sdb_refused R33 "/t" [ "/dev/sda" ]
           st_empty).
  - reflexivity.
  - intros s. reflexivity.
  - intros s dev Hdev. apply list_elem_of_singleton in Hdev. by subst dev.
  - intros s. reflexivity.
Defined.
